(** * E-Commerce-Backend: the document models and the authentication flow

    A shallow embedding of [Cart.js], [Product.js], [User.js], [auth.js]
    and [authRoutes.js], and the properties of the specification proved
    (or refuted) on it.

    Modelling conventions.
    - A JavaScript [Number] is an exact rational ([Q]); [+], [-], [*], [/]
      and the comparisons are the exact ones, so rounding errors of IEEE
      doubles, [NaN] and the infinities are outside the model. Equalities
      between computed numbers are stated with [==].
    - An [ObjectId] is the string that [toString] renders.
    - A Mongoose document is a record; [save] is what Mongoose runs for a
      schema: the validators declared in the schema first (a built-in
      [pre('save')] hook placed before the others), then the schema's own
      [pre('save')] hook, then the write. A rejected [save] leaves the
      in-memory document as the method mutated it and writes nothing.
    - String setters declared in a schema ([trim], [lowercase]) run when a
      value enters a document.
    - Collaborators that are libraries (bcrypt, jsonwebtoken, the clock,
      the id generator) are fields of a record of functions. *)

From Stdlib Require Import QArith Qround Qminmax ZArith List String Ascii Bool.
From Stdlib Require Import Lia Lqa.
From Stdlib Require DecimalString.
Import ListNotations.

Set Implicit Arguments.

(** ** JavaScript values and operators used by the sources *)

Module JS.

(** Numbers, dates (milliseconds) and object ids. *)
Abbreviation Number := Q (only parsing).
Abbreviation Date := Z (only parsing).
Abbreviation ObjectId := string (only parsing).

(** [a < b] on numbers. *)
Definition lt (a b : Number) : bool := negb (Qle_bool b a).
(** [a <= b] on numbers. *)
Definition le (a b : Number) : bool := Qle_bool a b.

(** Truthiness of a possibly missing string: [undefined] and [''] are
    falsy. *)
Definition truthy_str (v : option string) : bool :=
  match v with
  | Some s => negb (String.eqb s EmptyString)
  | None => false
  end.

(** Truthiness of a possibly missing number: [undefined] and [0] are
    falsy. *)
Definition truthy_num (v : option Number) : bool :=
  match v with
  | Some n => negb (Qeq_bool n 0)
  | None => false
  end.

(** [v || d] on a possibly missing string. *)
Definition or_str (v : option string) (d : string) : string :=
  match v with
  | Some s => if String.eqb s EmptyString then d else s
  | None => d
  end.

Definition lower_ascii (c : ascii) : ascii :=
  let n := nat_of_ascii c in
  if (65 <=? n)%nat && (n <=? 90)%nat then ascii_of_nat (n + 32) else c.

(** [s.toLowerCase()] on ASCII text. *)
Fixpoint toLowerCase (s : string) : string :=
  match s with
  | EmptyString => EmptyString
  | String c r => String (lower_ascii c) (toLowerCase r)
  end.

Definition is_space (c : ascii) : bool :=
  let n := nat_of_ascii c in
  (n =? 32)%nat || ((9 <=? n)%nat && (n <=? 13)%nat).

Fixpoint trimStart (s : string) : string :=
  match s with
  | EmptyString => EmptyString
  | String c r => if is_space c then trimStart r else s
  end.

Fixpoint trimEnd (s : string) : string :=
  match s with
  | EmptyString => EmptyString
  | String c r =>
      match trimEnd r with
      | EmptyString => if is_space c then EmptyString else String c EmptyString
      | r' => String c r'
      end
  end.

(** [s.trim()]. *)
Definition trim (s : string) : string := trimEnd (trimStart s).

(** [s.split('@')[0]]: the text before the first ['@'], all of [s] when
    there is none. *)
Fixpoint split_at_0 (s : string) : string :=
  match s with
  | EmptyString => EmptyString
  | String c r => if Ascii.eqb c "@"%char then EmptyString else String c (split_at_0 r)
  end.

(** [Math.round]: the nearest integer, halves towards [+infinity]. *)
Definition Math_round (x : Number) : Z := Qfloor (x + (1 # 2)).

(** [xs.findIndex(f)]: the first index whose element satisfies [f],
    [-1] when there is none. *)
Fixpoint findIndex_from {A} (f : A -> bool) (xs : list A) (i : Z) : Z :=
  match xs with
  | [] => (-1)%Z
  | x :: r => if f x then i else findIndex_from f r (i + 1)%Z
  end.

Definition findIndex {A} (f : A -> bool) (xs : list A) : Z :=
  findIndex_from f xs 0%Z.

(** [xs[i] = f(xs[i])], nothing when [i] is out of range. *)
Fixpoint update_nth {A} (g : A -> A) (xs : list A) (n : nat) : list A :=
  match xs, n with
  | [], _ => []
  | x :: r, O => g x :: r
  | x :: r, S m => x :: update_nth g r m
  end.

(** [xs.splice(i, 1)]. *)
Fixpoint splice1 {A} (xs : list A) (n : nat) : list A :=
  match xs, n with
  | [], _ => []
  | _ :: r, O => r
  | x :: r, S m => x :: splice1 r m
  end.

(** [s.replace(pat, '')] for a string pattern: the first occurrence of
    [pat] is removed. *)
Fixpoint remove_first (pat s : string) : string :=
  if String.prefix pat s then
    String.substring (String.length pat) (String.length s - String.length pat) s
  else
    match s with
    | EmptyString => EmptyString
    | String c r => String c (remove_first pat r)
    end.

(** [xs.length] as a number. *)
Definition length_num {A} (xs : list A) : Number :=
  inject_Z (Z.of_nat (List.length xs)).

End JS.

(** ** Cart.js *)

Module Cart.
Import JS.

Record CartItem := mkItem {
  productId : ObjectId;
  quantity : Number;
  price : Number;
  totalPrice : Number
}.

Record Cart := mkCart {
  userId : ObjectId;
  items : list CartItem;
  subtotal : Number;
  tax : Number;
  shipping : Number;
  discount : Number;
  total : Number;
  totalItems : Number;
  couponCode : option string;
  isActive : bool;
  lastModified : Date
}.

(** The document in memory ([this]) and the copy in the collection, absent
    until the first successful save. *)
Record World := mkWorld {
  this : Cart;
  stored : option Cart
}.

Inductive Error :=
| ValidationError
| ItemNotFound.   (* new Error('Item not found in cart') *)

Definition Result := (unit + Error)%type.

(** cartItemSchema: [quantity] has [min: 1], [price] and [totalPrice]
    have [min: 0]. *)
Definition validate_item (it : CartItem) : bool :=
  le 1 (quantity it) && le 0 (price it) && le 0 (totalPrice it).

(** cartSchema: every number field has [min: 0]; the items are validated
    as sub-documents. *)
Definition validate (c : Cart) : bool :=
  forallb validate_item (items c)
  && le 0 (subtotal c) && le 0 (tax c) && le 0 (shipping c)
  && le 0 (discount c) && le 0 (total c) && le 0 (totalItems c).

Definition set_items (c : Cart) (l : list CartItem) : Cart :=
  mkCart (userId c) l (subtotal c) (tax c) (shipping c) (discount c)
         (total c) (totalItems c) (couponCode c) (isActive c) (lastModified c).

Definition set_coupon (c : Cart) (code : option string) (d : Number) : Cart :=
  mkCart (userId c) (items c) (subtotal c) (tax c) (shipping c) d
         (total c) (totalItems c) code (isActive c) (lastModified c).

(** One turn of the [forEach] of the hook: the line total is rewritten,
    then added to the running subtotal, and the quantity to the running
    count. *)
Definition hook_step (acc : Number * Number * list CartItem) (item : CartItem)
  : Number * Number * list CartItem :=
  let '(sub, cnt, done) := acc in
  let item' := mkItem (productId item) (quantity item) (price item)
                      (price item * quantity item) in
  (sub + totalPrice item', cnt + quantity item', done ++ [item']).

(** cartSchema.pre('save'). *)
Definition pre_save (now : Date) (c : Cart) : Cart :=
  let '(sub, cnt, its) := fold_left hook_step (items c) (0, 0, []) in
  let t := sub + tax c + shipping c - discount c in
  let t := if lt t 0 then 0 else t in
  mkCart (userId c) its sub (tax c) (shipping c) (discount c)
         t cnt (couponCode c) (isActive c) now.

(** [this.save()]. *)
Definition save (now : Date) (w : World) : Result * World :=
  if validate (this w) then
    let d := pre_save now (this w) in
    (inl tt, mkWorld d (Some d))
  else (inr ValidationError, w).

Definition same_product (pid : ObjectId) (it : CartItem) : bool :=
  String.eqb (productId it) pid.

(** [addItem(productId, quantity = 1, price)]. *)
Definition addItem (now : Date) (pid : ObjectId) (qty : option Number)
           (pr : Number) (w : World) : Result * World :=
  let quantity0 := match qty with Some q => q | None => 1 end in
  let c := this w in
  let existingItemIndex := findIndex (same_product pid) (items c) in
  let its :=
    if (0 <=? existingItemIndex)%Z then
      update_nth (fun it => mkItem (productId it) (quantity it + quantity0) pr
                                   (totalPrice it))
                 (items c) (Z.to_nat existingItemIndex)
    else
      items c ++ [mkItem pid quantity0 pr (pr * quantity0)] in
  save now (mkWorld (set_items c its) (stored w)).

(** [updateItemQuantity(productId, quantity)]. *)
Definition updateItemQuantity (now : Date) (pid : ObjectId) (qty : Number)
           (w : World) : Result * World :=
  let c := this w in
  let itemIndex := findIndex (same_product pid) (items c) in
  if (0 <=? itemIndex)%Z then
    let its :=
      if le qty 0 then splice1 (items c) (Z.to_nat itemIndex)
      else update_nth (fun it => mkItem (productId it) qty (price it) (totalPrice it))
                      (items c) (Z.to_nat itemIndex) in
    save now (mkWorld (set_items c its) (stored w))
  else (inr ItemNotFound, w).

(** [removeItem(productId)]. *)
Definition removeItem (now : Date) (pid : ObjectId) (w : World) : Result * World :=
  let c := this w in
  let its := filter (fun it => negb (same_product pid it)) (items c) in
  save now (mkWorld (set_items c its) (stored w)).

(** [clearCart()]. *)
Definition clearCart (now : Date) (w : World) : Result * World :=
  let c := set_coupon (set_items (this w) []) None 0 in
  save now (mkWorld c (stored w)).

(** [applyCoupon(couponCode, discountAmount)]; the schema trims the
    code. *)
Definition applyCoupon (now : Date) (code : string) (discountAmount : Number)
           (w : World) : Result * World :=
  save now (mkWorld (set_coupon (this w) (Some (trim code)) discountAmount) (stored w)).

(** [removeCoupon()]. *)
Definition removeCoupon (now : Date) (w : World) : Result * World :=
  save now (mkWorld (set_coupon (this w) None 0) (stored w)).

(** The operations that end in a save. *)
Inductive Op :=
| OpAddItem (pid : ObjectId) (qty : option Number) (pr : Number)
| OpUpdateItemQuantity (pid : ObjectId) (qty : Number)
| OpRemoveItem (pid : ObjectId)
| OpClearCart
| OpApplyCoupon (code : string) (discountAmount : Number)
| OpRemoveCoupon
| OpSave.

Definition run (now : Date) (op : Op) (w : World) : Result * World :=
  match op with
  | OpAddItem pid qty pr => addItem now pid qty pr w
  | OpUpdateItemQuantity pid qty => updateItemQuantity now pid qty w
  | OpRemoveItem pid => removeItem now pid w
  | OpClearCart => clearCart now w
  | OpApplyCoupon code d => applyCoupon now code d w
  | OpRemoveCoupon => removeCoupon now w
  | OpSave => save now w
  end.

(** The sum of [f] over the items. *)
Fixpoint sum_over (f : CartItem -> Number) (l : list CartItem) : Number :=
  match l with
  | [] => 0
  | it :: r => f it + sum_over f r
  end.

Definition line (it : CartItem) : Number := price it * quantity it.

(** The totals a persisted cart must show. *)
Record totals_ok (c : Cart) : Prop := {
  subtotal_ok : subtotal c == sum_over line (items c);
  totalItems_ok : totalItems c == sum_over quantity (items c);
  lines_ok : Forall (fun it => totalPrice it = price it * quantity it) (items c);
  total_ok : total c == Qmax 0 (subtotal c + tax c + shipping c - discount c)
}.

(** The item as the hook leaves it. *)
Definition relined (it : CartItem) : CartItem :=
  mkItem (productId it) (quantity it) (price it) (price it * quantity it).

(** The items without the first item of a product. *)
Fixpoint remove_item (pid : ObjectId) (l : list CartItem) : list CartItem :=
  match l with
  | [] => []
  | it :: r => if same_product pid it then r else it :: remove_item pid r
  end.

(** The items with the quantity of the first item of a product set. *)
Fixpoint set_quantity (pid : ObjectId) (q : Number) (l : list CartItem)
  : list CartItem :=
  match l with
  | [] => []
  | it :: r =>
      if same_product pid it
      then mkItem (productId it) q (price it) (totalPrice it) :: r
      else it :: set_quantity pid q r
  end.

(** The world after a successful save of [c]. *)
Definition persisted (now : Date) (c : Cart) : World :=
  mkWorld (pre_save now c) (Some (pre_save now c)).

(** A product has an item in the cart. *)
Definition has_item (pid : ObjectId) (c : Cart) : bool :=
  existsb (same_product pid) (items c).

(** A cart that the schema accepts, with two items. *)
Definition cart0 : Cart :=
  mkCart "u1" [mkItem "p1" 3 10 30; mkItem "p2" 1 (5 # 2) (5 # 2)]
         0 2 5 40 0 0 (Some "SALE"%string) true 0.

Definition world0 : World := mkWorld cart0 None.

End Cart.

(** ** Product.js *)

Module Product.
Import JS.

Record Review := mkReview {
  user : ObjectId;
  rating : Number;
  comment : option string;
  helpful : Number
}.

Record Image := mkImage {
  url : string;
  alt : option string;
  isPrimary : bool
}.

(** The fields that a validator, the hook or a method of the file reads;
    [sku], [specifications], [dimensions], the SEO texts and the audit
    references carry no validator and are not read. *)
Record Product := mkProduct {
  _id : ObjectId;
  name : string;
  description : string;
  price : Number;
  comparePrice : option Number;
  category : string;
  subcategory : option string;
  brand : option string;
  images : list Image;
  image : option string;
  stock : Number;
  lowStockThreshold : Number;
  rating_ : Number;
  reviewCount : Number;
  reviews : list Review;
  tags : list string;
  isActive : bool;
  isFeatured : bool;
  createdAt : Date
}.

Record World := mkWorld {
  this : Product;
  stored : option Product
}.

Inductive Error := ValidationError.

Definition Result := (unit + Error)%type.

Definition max_length (n : nat) (s : string) : bool :=
  (String.length s <=? n)%nat.

Definition required_str (s : string) : bool :=
  negb (String.eqb s EmptyString).

(** reviewSchema: [rating] within 1..5, [comment] of at most 500
    characters. *)
Definition validate_review (r : Review) : bool :=
  le 1 (rating r) && le (rating r) 5
  && match comment r with Some c => max_length 500 c | None => true end.

(** productSchema. *)
Definition validate (p : Product) : bool :=
  required_str (name p) && max_length 100 (name p)
  && required_str (description p) && max_length 1000 (description p)
  && le 0 (price p)
  && match comparePrice p with Some c => le 0 c | None => true end
  && required_str (category p)
  && forallb (fun i => required_str (url i)) (images p)
  && le 0 (stock p)
  && le 0 (rating_ p) && le (rating_ p) 5
  && forallb validate_review (reviews p).

Definition set_reviews (p : Product) (l : list Review) : Product :=
  mkProduct (_id p) (name p) (description p) (price p) (comparePrice p)
    (category p) (subcategory p) (brand p) (images p) (image p) (stock p)
    (lowStockThreshold p) (rating_ p) (reviewCount p) l (tags p)
    (isActive p) (isFeatured p) (createdAt p).

Definition set_rating (p : Product) (r n : Number) : Product :=
  mkProduct (_id p) (name p) (description p) (price p) (comparePrice p)
    (category p) (subcategory p) (brand p) (images p) (image p) (stock p)
    (lowStockThreshold p) r n (reviews p) (tags p)
    (isActive p) (isFeatured p) (createdAt p).

(** [this.reviews.reduce((sum, review) => sum + review.rating, 0)]. *)
Definition totalRating (l : list Review) : Number :=
  fold_left (fun sum review => sum + rating review) l 0.

(** productSchema.pre('save'). *)
Definition pre_save (p : Product) : Product :=
  if lt 0 (length_num (reviews p)) then
    set_rating p
      (inject_Z (Math_round (totalRating (reviews p) / length_num (reviews p) * 10)) / 10)
      (length_num (reviews p))
  else set_rating p 0 0.

(** [this.save()]. *)
Definition save (w : World) : Result * World :=
  if validate (this w) then
    let d := pre_save (this w) in
    (inl tt, mkWorld d (Some d))
  else (inr ValidationError, w).

(** The sub-document that [push] builds from the object literal of
    [addReview]: [comment || ''] is trimmed by the schema, [helpful] takes
    its default. *)
Definition new_review (userId : ObjectId) (r : Number) (c : option string) : Review :=
  mkReview userId r (Some (trim (or_str c EmptyString))) 0.

(** [review.user.equals(userId)]. *)
Definition by_user (userId : ObjectId) (review : Review) : bool :=
  String.eqb (user review) userId.

(** The two statements of [addReview] before its save. *)
Definition addReview_reviews (l : list Review) (userId : ObjectId) (r : Number)
           (c : option string) : list Review :=
  filter (fun review => negb (by_user userId review)) l ++ [new_review userId r c].

(** [addReview(userId, rating, comment)]. *)
Definition addReview (userId : ObjectId) (r : Number) (c : option string)
           (w : World) : Result * World :=
  save (mkWorld (set_reviews (this w) (addReview_reviews (reviews (this w)) userId r c))
                (stored w)).

(** Calls of [addReview] by one user, one after the other on the same
    document, whatever each save answers. *)
Fixpoint addReview_seq (userId : ObjectId) (calls : list (Number * option string))
         (w : World) : World :=
  match calls with
  | [] => w
  | (r, c) :: rest => addReview_seq userId rest (snd (addReview userId r c w))
  end.

(** The operations that end in a save. *)
Inductive Op :=
| OpAddReview (userId : ObjectId) (r : Number) (c : option string)
| OpSave.

Definition run (op : Op) (w : World) : Result * World :=
  match op with
  | OpAddReview userId r c => addReview userId r c w
  | OpSave => save w
  end.

(** *** searchProducts *)

Record Filters := mkFilters {
  f_category : option string;
  f_subcategory : option string;
  f_minPrice : option Number;
  f_maxPrice : option Number;
  f_inStock : bool;
  f_sortBy : option string
}.

(** [searchQuery.price]: an object with the operators that were set. *)
Record PriceCond := mkPriceCond {
  gte : option Number;
  lte : option Number
}.

Record SearchQuery := mkQuery {
  q_isActive : bool;
  q_text : option string;           (* $text: { $search } *)
  q_category : option string;
  q_subcategory : option string;
  q_price : option PriceCond;
  q_stock_gt : option Number        (* stock: { $gt } *)
}.

Inductive SortOptions :=
| SortPrice (dir : Z)
| SortRating (dir : Z)
| SortCreatedAt (dir : Z)
| SortTextScore.                    (* score: { $meta: 'textScore' } *)

Definition sort_of (query : option string) (sortBy : option string) : SortOptions :=
  let default := if truthy_str query then SortTextScore else SortCreatedAt (-1) in
  match sortBy with
  | Some s =>
      if String.eqb s "price-low" then SortPrice 1
      else if String.eqb s "price-high" then SortPrice (-1)
      else if String.eqb s "rating" then SortRating (-1)
      else if String.eqb s "newest" then SortCreatedAt (-1)
      else default
  | None => default
  end.

(** The query and the sort order that [searchProducts] hands to
    [find(...).sort(...)]. *)
Definition searchProducts (query : option string) (filters : Filters)
  : SearchQuery * SortOptions :=
  let text := if truthy_str query then query else None in
  let cat := if truthy_str (f_category filters) then f_category filters else None in
  let sub := if truthy_str (f_subcategory filters) then f_subcategory filters else None in
  let pr :=
    if truthy_num (f_minPrice filters) || truthy_num (f_maxPrice filters) then
      Some (mkPriceCond
              (if truthy_num (f_minPrice filters) then f_minPrice filters else None)
              (if truthy_num (f_maxPrice filters) then f_maxPrice filters else None))
    else None in
  let st := if f_inStock filters then Some 0 else None in
  (mkQuery true text cat sub pr st, sort_of query (f_sortBy filters)).

(** What a price condition selects: each operator that is set bounds the
    price; an object without operators is an equality with an empty
    document, which no number satisfies. *)
Definition price_matches (c : PriceCond) (x : Number) : bool :=
  match gte c, lte c with
  | None, None => false
  | g, l =>
      match g with Some a => le a x | None => true end
      && match l with Some b => le x b | None => true end
  end.

Definition opt_str_eqb (a : option string) (b : string) : bool :=
  match a with Some s => String.eqb s b | None => false end.

(** A product is selected by a query; [text_match] is the text index. *)
Definition matches (text_match : string -> Product -> bool) (q : SearchQuery)
           (p : Product) : bool :=
  Bool.eqb (isActive p) (q_isActive q)
  && match q_text q with Some t => text_match t p | None => true end
  && match q_category q with Some c => String.eqb (category p) c | None => true end
  && match q_subcategory q with Some s => opt_str_eqb (subcategory p) s | None => true end
  && match q_price q with Some c => price_matches c (price p) | None => true end
  && match q_stock_gt q with Some n => lt n (stock p) | None => true end.

(** The mean of the ratings, and a number rounded to one decimal, as the
    specification words them. *)
Fixpoint sum_ratings (l : list Review) : Number :=
  match l with
  | [] => 0
  | r :: rest => rating r + sum_ratings rest
  end.

Definition mean_rating (l : list Review) : Number :=
  sum_ratings l / length_num l.

(** [y] is [x] rounded to one decimal: a whole number of tenths, at most
    half a tenth away from [x], the upper one when two are as near. *)
Definition rounded_1_decimal (x y : Number) : Prop :=
  (exists k : Z, y == inject_Z k / 10)
  /\ x - (1 # 20) < y /\ y <= x + (1 # 20).

(** A product that the schema accepts, with two reviews and a rating and
    a count that do not fit them. *)
Definition product0 : Product :=
  mkProduct "a1" "Mug" "A mug" 12 None "kitchen" None None [] None 50 10
            5 9 [mkReview "u1" 4 (Some "fine"%string) 0;
                 mkReview "u2" 5 None 0]
            [] true false 0.

Definition world0 : World := mkWorld product0 None.

End Product.

(** ** User.js *)

Module User.
Import JS.

Record User := mkUser {
  _id : ObjectId;
  name : string;
  email : string;
  password : string;
  role : string;
  googleId : option string;
  picture : option string;
  isActive : bool;
  lastLogin : option Date;
  createdAt : option Date
}.

Record PublicProfile := mkProfile {
  p_id : ObjectId;
  p_name : string;
  p_email : string;
  p_role : string;
  p_picture : option string;
  p_createdAt : option Date
}.

(** [getPublicProfile()]. *)
Definition getPublicProfile (u : User) : PublicProfile :=
  mkProfile (_id u) (name u) (email u) (role u) (picture u) (createdAt u).

Definition Collection := list User.

Inductive Exn :=
| ValidationFailed          (* a schema validator rejected the document *)
| DuplicateKey              (* the unique index on email rejected the insert *)
| SecretOrPrivateKeyMissing (* jsonwebtoken: secretOrPrivateKey must have a value *)
| InvalidToken.             (* jsonwebtoken: verification failed *)

Definition required_str (s : string) : bool :=
  negb (String.eqb s EmptyString).

(** userSchema: [name], [email] and [password] are required, [role] is
    one of ['user'] and ['admin']. *)
Definition validate (u : User) : bool :=
  required_str (name u) && required_str (email u) && required_str (password u)
  && (String.eqb (role u) "user" || String.eqb (role u) "admin").

(** [new User({ name, email, password, role })]: the setters of the
    schema run ([trim] on the name, [lowercase] and [trim] on the email),
    [isActive] takes its default. *)
Definition new_User (id : ObjectId) (nm em pw rl : string) : User :=
  mkUser id (trim nm) (trim (toLowerCase em)) pw rl None None true None None.

Definition set_lastLogin (u : User) (d : option Date) : User :=
  mkUser (_id u) (name u) (email u) (password u) (role u) (googleId u)
         (picture u) (isActive u) d (createdAt u).

Definition set_createdAt (u : User) (d : option Date) : User :=
  mkUser (_id u) (name u) (email u) (password u) (role u) (googleId u)
         (picture u) (isActive u) (lastLogin u) d.

(** userSchema.pre('save'). *)
Definition pre_save (now : Date) (isNew modifiedLastLogin : bool) (u : User) : User :=
  if isNew || modifiedLastLogin then set_lastLogin u (Some now) else u.

(** [User.findOne({ email })]: the query value goes through the setters
    of the path, then the first document with that email is returned. *)
Definition findOne_email (db : Collection) (em : string) : option User :=
  find (fun u => String.eqb (email u) (trim (toLowerCase em))) db.

(** [User.findById(id)]. *)
Definition findById (db : Collection) (id : ObjectId) : option User :=
  find (fun u => String.eqb (_id u) id) db.

(** [user.save()] of a new document. *)
Definition save_new (now : Date) (u : User) (db : Collection)
  : (User * Collection) + Exn :=
  if validate u then
    let u' := set_createdAt (pre_save now true false u) (Some now) in
    if existsb (fun v => String.eqb (email v) (email u')) db then inr DuplicateKey
    else inl (u', db ++ [u'])
  else inr ValidationFailed.

(** [user.save()] of a document read from the collection. *)
Definition save_existing (now : Date) (modifiedLastLogin : bool) (u : User)
           (db : Collection) : (User * Collection) + Exn :=
  if validate u then
    let u' := pre_save now false modifiedLastLogin u in
    inl (u', map (fun v => if String.eqb (_id v) (_id u') then u' else v) db)
  else inr ValidationFailed.

End User.

(** ** authRoutes.js, auth.js and admin.js *)

Module Auth.
Import JS User.
Local Open Scope string_scope.

(** [process.env]. *)
Record Env := mkEnv {
  JWT_SECRET : option string;
  NODE_ENV : option string
}.

Record Payload := mkPayload {
  userId : ObjectId;
  pl_email : string
}.

(** bcryptjs, jsonwebtoken, the id generator of the driver and the text
    of an exception. *)
Record Lib := mkLib {
  bcrypt_hash : string -> nat -> string;
  bcrypt_compare : string -> string -> bool;
  jwt_sign : Payload -> string -> string -> string;
  jwt_verify : string -> string -> option Payload;
  new_ObjectId : Collection -> ObjectId;
  error_message : Exn -> string
}.

Record Body := mkBody {
  b_name : option string;
  b_email : option string;
  b_password : option string;
  b_role : option string
}.

Record Response := mkResponse {
  status : nat;
  success : option bool;
  message : string;
  field : option string;
  r_role : option string;
  token : option string;
  r_user : option PublicProfile;
  error : option string
}.

Definition failure (st : nat) (msg fld : string) : Response :=
  mkResponse st (Some false) msg (Some fld) None None None None.

(** The secret that [generateToken] hands to [jwt.sign]. *)
Definition generateToken_secret (env : Env) : option string :=
  JWT_SECRET env.

(** The secret that the auth middleware hands to [jwt.verify]:
    [process.env.JWT_SECRET || 'your-secret-key']. *)
Definition auth_secret (env : Env) : string :=
  or_str (JWT_SECRET env) "your-secret-key".

(** [generateToken(userId, email)]; [jwt.sign] throws when the secret is
    missing or empty. *)
Definition generateToken (lib : Lib) (env : Env) (uid : ObjectId) (em : string)
  : string + Exn :=
  match generateToken_secret env with
  | Some secret =>
      if String.eqb secret EmptyString then inr SecretOrPrivateKeyMissing
      else inl (jwt_sign lib (mkPayload uid em) secret "7d")
  | None => inr SecretOrPrivateKeyMissing
  end.

Definition is_development (env : Env) : bool :=
  match NODE_ENV env with
  | Some v => String.eqb v "development"
  | None => false
  end.

(** The [catch] of a route: status 500, the text of the exception only in
    development. *)
Definition server_error (lib : Lib) (env : Env) (msg : string) (e : Exn) : Response :=
  mkResponse 500 (Some false) msg None None None None
    (Some (if is_development env then error_message lib e
           else "Internal server error")).

(** [router.post('/register')]: the response and the collection after the
    request. *)
Definition register (lib : Lib) (env : Env) (now : Date) (db : Collection)
           (body : Body) : Response * Collection :=
  if negb (truthy_str (b_email body)) || negb (truthy_str (b_password body)) then
    (failure 400 "Email and password are required"
             (if negb (truthy_str (b_email body)) then "email" else "password"), db)
  else
    let email0 := or_str (b_email body) EmptyString in
    let password0 := or_str (b_password body) EmptyString in
    if (String.length password0 <? 6)%nat then
      (failure 400 "Password must be at least 6 characters long" "password", db)
    else
      match findOne_email db (toLowerCase email0) with
      | Some _ => (failure 400 "User already exists with this email" "email", db)
      | None =>
          let hashedPassword := bcrypt_hash lib password0 12 in
          let user := new_User (new_ObjectId lib db)
                               (or_str (b_name body) (split_at_0 email0))
                               (toLowerCase email0)
                               hashedPassword
                               (or_str (b_role body) "user") in
          match save_new now user db with
          | inr e => (server_error lib env "Server error during registration" e, db)
          | inl (user', db') =>
              match generateToken lib env (_id user') (email user') with
              | inr e => (server_error lib env "Server error during registration" e, db')
              | inl tok =>
                  (mkResponse 201 (Some true) "User created successfully" None None
                              (Some tok) (Some (getPublicProfile user')) None, db')
              end
          end
      end.

(** [router.post('/login')]. *)
Definition login (lib : Lib) (env : Env) (now : Date) (db : Collection)
           (body : Body) : Response * Collection :=
  if negb (truthy_str (b_email body)) || negb (truthy_str (b_password body)) then
    (failure 400 "Email and password are required"
             (if negb (truthy_str (b_email body)) then "email" else "password"), db)
  else
    let email0 := or_str (b_email body) EmptyString in
    let password0 := or_str (b_password body) EmptyString in
    match findOne_email db (toLowerCase email0) with
    | None => (failure 400 "Invalid email or password" "email", db)
    | Some user =>
        if negb (isActive user) then
          (failure 403 "Account is deactivated. Please contact support." "account", db)
        else if negb (bcrypt_compare lib password0 (password user)) then
          (failure 400 "Invalid email or password" "password", db)
        else
          match save_existing now true (set_lastLogin user (Some now)) db with
          | inr e => (server_error lib env "Server error during login" e, db)
          | inl (user', db') =>
              match generateToken lib env (_id user') (email user') with
              | inr e => (server_error lib env "Server error during login" e, db')
              | inl tok =>
                  (mkResponse 200 (Some true) "Login successful" None
                              (Some (role user')) (Some tok)
                              (Some (getPublicProfile user')) None, db')
              end
          end
    end.

(** The document that [register] builds from a body. *)
Definition candidate (lib : Lib) (db : Collection) (body : Body) : User :=
  new_User (new_ObjectId lib db)
           (or_str (b_name body) (split_at_0 (or_str (b_email body) EmptyString)))
           (toLowerCase (or_str (b_email body) EmptyString))
           (bcrypt_hash lib (or_str (b_password body) EmptyString) 12)
           (or_str (b_role body) "user").

(** The document as the first save stores it. *)
Definition created (lib : Lib) (now : Date) (db : Collection) (body : Body) : User :=
  set_createdAt (pre_save now true false (candidate lib db body)) (Some now).

(** What a middleware does with a request: it answers, or it calls
    [next()] with what it attached to the request. *)
Inductive Outcome (A : Type) :=
| Respond (st : nat) (msg : string)
| Next (attached : A).
Arguments Respond {A} st msg.
Arguments Next {A} attached.

(** The user attached by the auth middleware, read with
    [select('-password')]. *)
Definition without_password (u : User) : User :=
  mkUser (_id u) (name u) (email u) EmptyString (role u) (googleId u)
         (picture u) (isActive u) (lastLogin u) (createdAt u).

(** auth.js. *)
Definition auth (lib : Lib) (env : Env) (db : Collection) (authHeader : option string)
  : Outcome (ObjectId * User) :=
  if negb (truthy_str authHeader) then Respond 401 "No authorization header"
  else
    let tok := remove_first "Bearer " (or_str authHeader EmptyString) in
    match jwt_verify lib tok (auth_secret env) with
    | None => Respond 401 "Authentication failed"
    | Some decoded =>
        match findById db (userId decoded) with
        | None => Respond 401 "User not found"
        | Some user => Next (userId decoded, without_password user)
        end
    end.

(** admin.js. *)
Definition admin (req_user : option User) : Outcome unit :=
  match req_user with
  | Some u =>
      if String.eqb (role u) "admin" then Next tt
      else Respond 403 "Access denied. Admin privileges required."
  | None => Respond 403 "Access denied. Admin privileges required."
  end.

(** Stand-ins for the libraries, an environment with a secret and one
    without, and a collection with an active and a deactivated user. *)
Definition lib0 : Lib :=
  mkLib (fun pw _ => "$2a$12$" ++ pw)
        (fun pw h => String.eqb h ("$2a$12$" ++ pw))
        (fun pl secret _ => Auth.userId pl ++ "." ++ pl_email pl ++ "." ++ secret)
        (fun _ _ => None)
        (fun db => String.concat "" ("id" :: List.map (fun _ => "x") db))
        (fun _ => "exception").

Definition env0 : Env := mkEnv (Some "s3cret") (Some "production").

Definition env_unset : Env := mkEnv None (Some "production").

Definition db0 : Collection :=
  [mkUser "id1" "Ann" "ann@x.com" "$2a$12$secret1" "user" None None true None (Some 0%Z);
   mkUser "id2" "Bob" "bob@x.com" "$2a$12$hunter22" "user" None None false None (Some 0%Z)].

End Auth.

(** ** Cart.js: what the further properties speak of *)

Module CartMore.
Import JS Cart.

(** The product ids of the items, in order. *)
Definition product_ids (c : Cart) : list string := map productId (items c).

(** The items with [g] applied to the first item of a product. *)
Fixpoint update_first (pid : ObjectId) (g : CartItem -> CartItem)
         (l : list CartItem) : list CartItem :=
  match l with
  | [] => []
  | it :: r => if same_product pid it then g it :: r else it :: update_first pid g r
  end.

(** [quantity = 1] as a default parameter. *)
Definition quantity_or_1 (qty : option Number) : Number :=
  match qty with Some q => q | None => 1 end.

(** The document with another [lastModified]. *)
Definition set_lastModified (c : Cart) (d : Date) : Cart :=
  mkCart (userId c) (items c) (subtotal c) (tax c) (shipping c) (discount c)
         (total c) (totalItems c) (couponCode c) (isActive c) d.

End CartMore.

(** ** Product.js: a virtual field and the sort keys *)

Module ProductMore.
Import JS Product.

(** The virtual [discountPercentage]. *)
Definition discountPercentage (p : Product) : Number :=
  match comparePrice p with
  | Some cp =>
      if negb (Qeq_bool cp 0) && lt (price p) cp
      then inject_Z (Math_round ((cp - price p) / cp * 100))
      else 0
  | None => 0
  end.

(** The values of [sortBy] that the [switch] of searchProducts names. *)
Definition known_sort_key (s : string) : bool :=
  String.eqb s "price-low" || String.eqb s "price-high"
  || String.eqb s "rating" || String.eqb s "newest".

End ProductMore.

(** ** authRoutes.js: the other routes, and the chain of the dashboard *)

Module AuthMore.
Import JS User Auth.
Local Open Scope string_scope.

(** A whole number in a template literal or a string concatenation. *)
Definition show (z : Z) : string :=
  DecimalString.NilZero.string_of_int (Z.to_int z).

Record GoogleBody := mkGoogleBody {
  g_email : option string;
  g_name : option string;
  g_googleId : option string;
  g_picture : option string
}.

(** [{ id, email, role, isAdmin, isActive }] of /verify-admin. *)
Record UserData := mkUserData {
  d_id : ObjectId;
  d_email : string;
  d_role : string;
  d_isAdmin : bool;
  d_isActive : bool
}.

(** The answers of the routes below; a field that the route does not send
    is [None]. *)
Record Reply := mkReply {
  rp_status : nat;
  rp_success : option bool;
  rp_message : option string;
  rp_token : option string;
  rp_user : option PublicProfile;
  rp_userData : option UserData;
  rp_error : option string
}.

Definition say (st : nat) (msg : string) : Reply :=
  mkReply st None (Some msg) None None None None.

(** The [catch] of the Google routes. *)
Definition google_error (lib : Lib) (e : Exn) : Reply :=
  mkReply 500 None (Some "Server error") None None None (Some (error_message lib e)).

(** [new User({ name, email, password, googleId, picture, role: 'user' })]. *)
Definition new_User_google (id : ObjectId) (nm em pw gid : string)
           (pic : option string) : User :=
  mkUser id (trim nm) (trim (toLowerCase em)) pw "user" (Some gid) pic true None None.

(** [user.googleId = googleId; user.picture = picture]. *)
Definition set_google (u : User) (gid : string) (pic : option string) : User :=
  mkUser (_id u) (name u) (email u) (password u) (role u) (Some gid) pic
         (isActive u) (lastLogin u) (createdAt u).

Definition google_candidate (lib : Lib) (now : Date) (db : Collection)
           (gb : GoogleBody) : User :=
  new_User_google (new_ObjectId lib db)
    (or_str (g_name gb) (split_at_0 (or_str (g_email gb) "")))
    (toLowerCase (or_str (g_email gb) ""))
    (bcrypt_hash lib (or_str (g_googleId gb) "" ++ show now) 12)
    (or_str (g_googleId gb) "")
    (g_picture gb).

(** [router.post('/google-register')]. *)
Definition googleRegister (lib : Lib) (env : Env) (now : Date) (db : Collection)
           (gb : GoogleBody) : Reply * Collection :=
  if negb (truthy_str (g_email gb)) || negb (truthy_str (g_googleId gb)) then
    (say 400 "Email and Google ID are required", db)
  else
    match findOne_email db (toLowerCase (or_str (g_email gb) "")) with
    | Some user =>
        match (if negb (truthy_str (googleId user))
               then save_existing now false
                      (set_google user (or_str (g_googleId gb) "") (g_picture gb)) db
               else inl (user, db)) with
        | inr e => (google_error lib e, db)
        | inl (user', db') =>
            match generateToken lib env (_id user') (email user') with
            | inr e => (google_error lib e, db')
            | inl tok =>
                (mkReply 200 None (Some "Login successful") (Some tok)
                         (Some (getPublicProfile user')) None None, db')
            end
        end
    | None =>
        match save_new now (google_candidate lib now db gb) db with
        | inr e => (google_error lib e, db)
        | inl (user', db') =>
            match generateToken lib env (_id user') (email user') with
            | inr e => (google_error lib e, db')
            | inl tok =>
                (mkReply 201 None (Some "Google signup successful") (Some tok)
                         (Some (getPublicProfile user')) None None, db')
            end
        end
    end.

(** [router.post('/google-login')]. *)
Definition googleLogin (lib : Lib) (env : Env) (now : Date) (db : Collection)
           (gb : GoogleBody) : Reply * Collection :=
  if negb (truthy_str (g_email gb)) || negb (truthy_str (g_googleId gb)) then
    (say 400 "Email and Google ID are required", db)
  else
    match (match findOne_email db (toLowerCase (or_str (g_email gb) "")) with
           | None => save_new now (google_candidate lib now db gb) db
           | Some user =>
               let linked :=
                 if negb (truthy_str (googleId user))
                 then set_google user (or_str (g_googleId gb) "") (g_picture gb)
                 else user in
               save_existing now true (set_lastLogin linked (Some now)) db
           end) with
    | inr e => (google_error lib e, db)
    | inl (user', db') =>
        if negb (isActive user') then (say 400 "Account is deactivated", db')
        else
          match generateToken lib env (_id user') (email user') with
          | inr e => (google_error lib e, db')
          | inl tok =>
              (mkReply 200 None (Some "Google login successful") (Some tok)
                       (Some (getPublicProfile user')) None None, db')
          end
    end.

(** [jwt.verify(token, process.env.JWT_SECRET)] as the routes call it:
    without a fallback, so that an unset secret reaches the library, whose
    answer in that case is [nokey]. *)
Definition verify_env (lib : Lib) (nokey : string -> option Payload) (env : Env)
           (tok : string) : option Payload :=
  match JWT_SECRET env with
  | Some secret => jwt_verify lib tok secret
  | None => nokey tok
  end.

(** [router.get('/me')]. *)
Definition me (lib : Lib) (nokey : string -> option Payload) (env : Env)
           (db : Collection) (authorization : option string) : Reply :=
  let tok := option_map (remove_first "Bearer ") authorization in
  if negb (truthy_str tok) then say 401 "No token provided"
  else
    match verify_env lib nokey env (or_str tok "") with
    | None => say 401 "Invalid token"
    | Some decoded =>
        match findById db (Auth.userId decoded) with
        | None => say 404 "User not found"
        | Some user =>
            mkReply 200 None None None
                    (Some (getPublicProfile (without_password user))) None None
        end
    end.

(** [router.post('/refresh')]. *)
Definition refresh (lib : Lib) (nokey : string -> option Payload) (env : Env)
           (db : Collection) (authorization : option string) : Reply :=
  let tok := option_map (remove_first "Bearer ") authorization in
  if negb (truthy_str tok) then say 401 "No token provided"
  else
    match verify_env lib nokey env (or_str tok "") with
    | None => say 401 "Invalid token"
    | Some decoded =>
        match findById db (Auth.userId decoded) with
        | None => say 404 "User not found"
        | Some user =>
            match generateToken lib env (_id user) (email user) with
            | inr _ => say 401 "Invalid token"
            | inl newToken =>
                mkReply 200 None (Some "Token refreshed successfully")
                        (Some newToken) (Some (getPublicProfile user)) None None
            end
        end
    end.

(** [router.get('/verify-admin')]. *)
Definition verifyAdmin (lib : Lib) (nokey : string -> option Payload) (env : Env)
           (db : Collection) (authHeader : option string) : Reply :=
  if negb (truthy_str authHeader) then say 401 "No token provided"
  else
    let tok := remove_first "Bearer " (or_str authHeader "") in
    match verify_env lib nokey env tok with
    | None =>
        mkReply 401 (Some false) (Some "Token verification failed") None None None
                (Some (error_message lib InvalidToken))
    | Some decoded =>
        match findById db (Auth.userId decoded) with
        | None => say 404 "User not found"
        | Some user =>
            mkReply 200 (Some true) (Some "User verified") None None
                    (Some (mkUserData (_id user) (email user) (role user)
                                      (String.eqb (role user) "admin")
                                      (isActive user)))
                    None
        end
    end.

(** The chain [[auth, admin]] in front of every route of the dashboard. *)
Definition protected (lib : Lib) (env : Env) (db : Collection)
           (authHeader : option string) : Outcome unit :=
  match auth lib env db authHeader with
  | Respond st msg => Respond st msg
  | Next (_, user) => admin (Some user)
  end.

(** The requests that write to the collection of users. *)
Inductive Request :=
| ReqRegister (body : Body)
| ReqLogin (body : Body)
| ReqGoogleRegister (gb : GoogleBody)
| ReqGoogleLogin (gb : GoogleBody).

(** The collection after a request. *)
Definition after (lib : Lib) (env : Env) (now : Date) (db : Collection)
           (req : Request) : Collection :=
  match req with
  | ReqRegister body => snd (register lib env now db body)
  | ReqLogin body => snd (login lib env now db body)
  | ReqGoogleRegister gb => snd (googleRegister lib env now db gb)
  | ReqGoogleLogin gb => snd (googleLogin lib env now db gb)
  end.

(** What the storage layer and the validators keep true of the
    collection: one user per email, one per id, every user valid. *)
Definition well_formed (db : Collection) : Prop :=
  NoDup (map email db) /\ NoDup (map _id db)
  /\ Forall (fun u => validate u = true) db.

(** The text before and after the first occurrence of a character. *)
Fixpoint split_on (c : ascii) (s : string) : string * string :=
  match s with
  | EmptyString => (EmptyString, EmptyString)
  | String x r =>
      if Ascii.eqb x c then (EmptyString, r)
      else let '(a, b) := split_on c r in (String x a, b)
  end.

(** A stand-in for jsonwebtoken whose [verify] reads back what its [sign]
    wrote, for ids and emails without a bar. *)
Definition lib1 : Lib :=
  mkLib (bcrypt_hash lib0) (bcrypt_compare lib0)
        (fun pl secret _ => Auth.userId pl ++ "|" ++ pl_email pl ++ "|" ++ secret)
        (fun tok secret =>
           let '(uid, rest) := split_on "|" tok in
           let '(em, sec) := split_on "|" rest in
           if String.eqb sec secret then Some (mkPayload uid em) else None)
        (new_ObjectId lib0) (error_message lib0).

(** A deactivated admin. *)
Definition root0 : User :=
  mkUser "id7" "Root" "root@x.com" "$2a$12$rootroot" "admin" None None false
         None (Some 0%Z).

End AuthMore.

(** * Properties *)

(** ** The helpers, on small inputs *)

Module JSExamples.
Import JS.
Local Open Scope string_scope.

Example trim_both_ends : trim "  a b  " = "a b".
Proof. reflexivity. Qed.

Example trim_blank : trim "   " = "".
Proof. reflexivity. Qed.

Example lower_email : toLowerCase "Ann@X.com" = "ann@x.com".
Proof. reflexivity. Qed.

Example prefix_of_email : split_at_0 "ann@x.com" = "ann".
Proof. reflexivity. Qed.

Example bearer_removed : remove_first "Bearer " "Bearer abc.def" = "abc.def".
Proof. reflexivity. Qed.

Example bearer_absent : remove_first "Bearer " "abc.def" = "abc.def".
Proof. reflexivity. Qed.

Example round_half_up : Math_round (5 # 2) = 3%Z /\ Math_round (-5 # 2) = (-2)%Z.
Proof. split; reflexivity. Qed.

Example findIndex_second : findIndex (Nat.eqb 7) [3; 7; 7]%nat = 1%Z.
Proof. reflexivity. Qed.

Example findIndex_none : findIndex (Nat.eqb 7) [3; 4]%nat = (-1)%Z.
Proof. reflexivity. Qed.

End JSExamples.

(** ** The cart *)

Module CartProofs.
Import JS Cart.

(** The loop of the hook, from any running totals. *)
Lemma hook_fold (l : list CartItem) :
  forall s n d,
    let r := fold_left hook_step l (s, n, d) in
    fst (fst r) == s + sum_over line l
    /\ snd (fst r) == n + sum_over quantity l
    /\ snd r = d ++ map relined l.
Proof.
  induction l as [|it l IH]; intros s n d r; subst r.
  - simpl. split; [ring|]. split; [ring|]. symmetry; apply app_nil_r.
  - simpl fold_left. unfold hook_step at 2. simpl totalPrice. simpl quantity.
    destruct (IH (s + price it * quantity it) (n + quantity it)
                 (d ++ [mkItem (productId it) (quantity it) (price it)
                               (price it * quantity it)])) as (H1 & H2 & H3).
    split; [|split].
    + rewrite H1. simpl. unfold line at 2. ring.
    + rewrite H2. simpl. ring.
    + rewrite H3. simpl. now rewrite <- app_assoc.
Qed.

Lemma sum_line_relined (l : list CartItem) :
  sum_over line (map relined l) = sum_over line l.
Proof. induction l as [|it l IH]; simpl; [reflexivity | now rewrite IH]. Qed.

Lemma sum_quantity_relined (l : list CartItem) :
  sum_over quantity (map relined l) = sum_over quantity l.
Proof. induction l as [|it l IH]; simpl; [reflexivity | now rewrite IH]. Qed.

Lemma floor_at_zero (t : Q) : (if lt t 0 then 0 else t) == Qmax 0 t.
Proof.
  unfold lt. destruct (Qle_bool 0 t) eqn:E; simpl.
  - apply Qle_bool_iff in E. symmetry. now apply Q.max_r.
  - assert (t <= 0).
    { apply Qlt_le_weak, Qnot_le_lt. intro H.
      apply Qle_bool_iff in H. congruence. }
    symmetry. now apply Q.max_l.
Qed.

Lemma pre_save_items (now : Z) (c : Cart) :
  items (pre_save now c) = map relined (items c).
Proof.
  unfold pre_save.
  pose proof (hook_fold (items c) 0 0 []) as H. simpl in H.
  destruct (fold_left hook_step (items c) (0, 0, [])) as [[sub cnt] its].
  simpl in *. tauto.
Qed.

(** The hook alone establishes the totals, whatever the document held. *)
Lemma pre_save_totals (now : Z) (c : Cart) : totals_ok (pre_save now c).
Proof.
  pose proof (pre_save_items now c) as Hit.
  unfold pre_save in *.
  pose proof (hook_fold (items c) 0 0 []) as H. simpl in H.
  destruct (fold_left hook_step (items c) (0, 0, [])) as [[sub cnt] its].
  simpl in *. destruct H as (H1 & H2 & _). subst its.
  constructor; simpl.
  - rewrite sum_line_relined, H1. ring.
  - rewrite sum_quantity_relined, H2. ring.
  - apply Forall_forall. intros it Hin. apply in_map_iff in Hin.
    destruct Hin as (x & <- & _). reflexivity.
  - apply floor_at_zero.
Qed.

Lemma cart_save_inv (now : Z) (w w' : World) :
  save now w = (inl tt, w') ->
  validate (this w) = true /\ w' = persisted now (this w).
Proof.
  unfold save, persisted. destruct (validate (this w)); intros H.
  - now inversion H.
  - discriminate.
Qed.

Lemma cart_save_valid (now : Z) (w : World) :
  validate (this w) = true -> save now w = (inl tt, persisted now (this w)).
Proof. unfold save, persisted. now intros ->. Qed.

Lemma cart_save_invalid (now : Z) (w : World) :
  validate (this w) = false -> save now w = (inr ValidationError, w).
Proof. unfold save. now intros ->. Qed.

(** C1. After any operation that persists the cart (addItem,
    updateItemQuantity, removeItem, clearCart, applyCoupon, removeCoupon or
    a direct save), the stored cart is the document in memory, its subtotal
    is the sum of price x quantity over its items, its totalItems the sum
    of the quantities, each item's totalPrice its price x quantity, and its
    total max(0, subtotal + tax + shipping - discount), whatever these
    fields held before. *)
Theorem persisted_cart_totals (now : Z) (op : Op) (w w' : World) :
  run now op w = (inl tt, w') ->
  stored w' = Some (this w') /\ totals_ok (this w').
Proof.
  intros H.
  assert (exists c, w' = persisted now c) as [c ->].
  { destruct op; simpl in H;
      unfold addItem, updateItemQuantity, removeItem, clearCart,
             applyCoupon, removeCoupon in H;
      try (apply cart_save_inv in H; destruct H as [_ H]; eauto).
    destruct (0 <=? findIndex (same_product pid) (items (this w)))%Z;
      [apply cart_save_inv in H; destruct H as [_ H]; eauto | discriminate]. }
  split; [reflexivity | apply pre_save_totals].
Qed.

Lemma persisted_cart_totals_witness :
  stored (snd (run 7 (OpAddItem "p1" (Some 2) 12) world0))
  = Some (this (snd (run 7 (OpAddItem "p1" (Some 2) 12) world0)))
  /\ totals_ok (this (snd (run 7 (OpAddItem "p1" (Some 2) 12) world0))).
Proof.
  apply (@persisted_cart_totals 7 (OpAddItem "p1" (Some 2) 12) world0).
  vm_compute. reflexivity.
Defined.

(** One item of price 10 and quantity 3, tax 2, shipping 5 and discount 40:
    the subtotal is 30 and the total is floored at 0. *)
Example floored_total :
  let c := pre_save 7 (mkCart "u1" [mkItem "p1" 3 10 0] 99 2 5 40 99 99 None true 0) in
  subtotal c == 30 /\ totalItems c == 3 /\ total c == 0
  /\ map totalPrice (items c) = [10 * 3].
Proof. repeat split. Qed.

(** *** updateItemQuantity *)

Lemma findIndex_absent (pid : string) (l : list CartItem) :
  forall k, existsb (same_product pid) l = false ->
            findIndex_from (same_product pid) l k = (-1)%Z.
Proof.
  induction l as [|it l IH]; intros k H; simpl in *; [reflexivity|].
  destruct (same_product pid it); [discriminate | now apply IH].
Qed.

Lemma findIndex_present (pid : string) (q : Q) (l : list CartItem) :
  forall k, (0 <= k)%Z -> existsb (same_product pid) l = true ->
    let i := findIndex_from (same_product pid) l k in
    (k <= i)%Z
    /\ splice1 l (Z.to_nat (i - k)) = remove_item pid l
    /\ update_nth (fun it => mkItem (productId it) q (price it) (totalPrice it))
                  l (Z.to_nat (i - k)) = set_quantity pid q l.
Proof.
  induction l as [|it l IH]; intros k Hk H; simpl in *; [discriminate|].
  destruct (same_product pid it) eqn:E.
  - rewrite Z.sub_diag. simpl. repeat split; lia.
  - simpl in H. destruct (IH (k + 1)%Z ltac:(lia) H) as (H1 & H2 & H3).
    set (i := findIndex_from (same_product pid) l (k + 1)) in *.
    replace (Z.to_nat (i - k)) with (S (Z.to_nat (i - (k + 1)))) by lia.
    simpl. rewrite H2, H3. repeat split; lia.
Qed.

Lemma validate_items (c : Cart) (l : list CartItem) :
  validate c = true -> forallb validate_item l = true ->
  validate (set_items c l) = true.
Proof.
  unfold validate; simpl. intros H Hl. rewrite Hl.
  repeat (apply andb_prop in H; destruct H as [H ?]).
  repeat (apply andb_true_intro; split); auto.
Qed.

Lemma validate_remove_item (pid : string) (l : list CartItem) :
  forallb validate_item l = true ->
  forallb validate_item (remove_item pid l) = true.
Proof.
  induction l as [|it l IH]; simpl; [auto|]. intros H.
  apply andb_prop in H. destruct H as [H1 H2].
  destruct (same_product pid it); simpl; [assumption|].
  now rewrite H1, IH.
Qed.

Lemma validate_set_quantity (pid : string) (q : Q) (l : list CartItem) :
  forallb validate_item l = true -> le 1 q = true ->
  forallb validate_item (set_quantity pid q l) = true.
Proof.
  induction l as [|it l IH]; simpl; [auto|]. intros H Hq.
  apply andb_prop in H. destruct H as [H1 H2].
  destruct (same_product pid it); simpl.
  - rewrite H2, andb_true_r. unfold validate_item in *. simpl.
    rewrite Hq. simpl.
    apply andb_prop in H1. destruct H1 as [H1 H3].
    apply andb_prop in H1. destruct H1 as [_ H1]. now rewrite H1, H3.
  - now rewrite H1, IH.
Qed.

Lemma invalid_set_quantity (pid : string) (q : Q) (l : list CartItem) :
  existsb (same_product pid) l = true -> le 1 q = false ->
  forallb validate_item (set_quantity pid q l) = false.
Proof.
  induction l as [|it l IH]; simpl; [discriminate|]. intros H Hq.
  destruct (same_product pid it); simpl.
  - unfold validate_item at 1. simpl. now rewrite Hq.
  - simpl in H. rewrite (IH H Hq). apply andb_false_r.
Qed.

Lemma validate_forallb (c : Cart) :
  validate c = true -> forallb validate_item (items c) = true.
Proof.
  unfold validate. intros H.
  repeat (apply andb_prop in H; destruct H as [H ?]). assumption.
Qed.

(** C4, as the code has it. For every cart and productId: when no item of
    the product exists, updateItemQuantity fails with the not-found error
    and changes neither the document nor the stored cart; when one exists
    and the cart is valid, q <= 0 removes the (first) item and persists,
    and q >= 1 sets its quantity to q and persists; when one exists and
    0 < q < 1 the quantity is set in memory, the save is rejected by the
    validator of quantity (min: 1) and the stored cart is unchanged. *)
Theorem updateItemQuantity_spec (now : Z) (pid : string) (q : Q) (w : World) :
  (has_item pid (this w) = false ->
   updateItemQuantity now pid q w = (inr ItemNotFound, w))
  /\ (has_item pid (this w) = true -> validate (this w) = true -> q <= 0 ->
      updateItemQuantity now pid q w
      = (inl tt, persisted now (set_items (this w)
                                          (remove_item pid (items (this w))))))
  /\ (has_item pid (this w) = true -> validate (this w) = true -> 1 <= q ->
      updateItemQuantity now pid q w
      = (inl tt, persisted now (set_items (this w)
                                          (set_quantity pid q (items (this w))))))
  /\ (has_item pid (this w) = true -> 0 < q -> q < 1 ->
      updateItemQuantity now pid q w
      = (inr ValidationError,
         mkWorld (set_items (this w) (set_quantity pid q (items (this w))))
                 (stored w))).
Proof.
  unfold has_item, updateItemQuantity, findIndex.
  split; [|split; [|split]].
  - intros H. now rewrite (findIndex_absent _ _ 0%Z H).
  - intros H Hv Hq.
    destruct (@findIndex_present pid q (items (this w)) 0%Z (Z.le_refl 0) H)
      as (H1 & H2 & _).
    apply Z.leb_le in H1. rewrite H1.
    apply Qle_bool_iff in Hq. unfold le at 1. rewrite Hq.
    rewrite Z.sub_0_r in H2. rewrite H2.
    apply cart_save_valid. simpl.
    apply validate_items; [assumption|].
    apply validate_remove_item, validate_forallb, Hv.
  - intros H Hv Hq.
    destruct (@findIndex_present pid q (items (this w)) 0%Z (Z.le_refl 0) H)
      as (H1 & _ & H3).
    apply Z.leb_le in H1. rewrite H1.
    assert (le q 0 = false) as ->.
    { unfold le. destruct (Qle_bool q 0) eqn:E; [|reflexivity].
      apply Qle_bool_iff in E. lra. }
    rewrite Z.sub_0_r in H3. rewrite H3.
    apply cart_save_valid. simpl.
    apply validate_items; [assumption|].
    apply validate_set_quantity; [now apply validate_forallb|].
    now apply Qle_bool_iff.
  - intros H Hq0 Hq1.
    destruct (@findIndex_present pid q (items (this w)) 0%Z (Z.le_refl 0) H)
      as (H1 & _ & H3).
    apply Z.leb_le in H1. rewrite H1.
    assert (le q 0 = false) as ->.
    { unfold le. destruct (Qle_bool q 0) eqn:E; [|reflexivity].
      apply Qle_bool_iff in E. lra. }
    rewrite Z.sub_0_r in H3. rewrite H3.
    apply cart_save_invalid. simpl. unfold validate. simpl.
    rewrite invalid_set_quantity; [reflexivity | assumption |].
    unfold le. destruct (Qle_bool 1 q) eqn:E; [|reflexivity].
    apply Qle_bool_iff in E. lra.
Qed.

Lemma updateItemQuantity_spec_witness :
  updateItemQuantity 7 "p9" 2 world0 = (inr ItemNotFound, world0)
  /\ updateItemQuantity 7 "p1" 0 world0
     = (inl tt, persisted 7 (set_items cart0 (remove_item "p1" (items cart0))))
  /\ updateItemQuantity 7 "p1" 4 world0
     = (inl tt, persisted 7 (set_items cart0 (set_quantity "p1" 4 (items cart0))))
  /\ updateItemQuantity 7 "p1" (1 # 2) world0
     = (inr ValidationError,
        mkWorld (set_items cart0 (set_quantity "p1" (1 # 2) (items cart0))) None).
Proof.
  split; [|split; [|split]].
  - apply (proj1 (updateItemQuantity_spec 7 "p9" 2 world0)). reflexivity.
  - apply (proj1 (proj2 (updateItemQuantity_spec 7 "p1" 0 world0)));
      [reflexivity | reflexivity | discriminate].
  - apply (proj1 (proj2 (proj2 (updateItemQuantity_spec 7 "p1" 4 world0))));
      [reflexivity | reflexivity | discriminate].
  - apply (proj2 (proj2 (proj2 (updateItemQuantity_spec 7 "p1" (1 # 2) world0))));
      reflexivity.
Defined.

(** C4 as stated fails: on a valid cart that holds an item of "p1", a
    quantity of one half is positive, yet the call is rejected and nothing
    is persisted. *)
Lemma updateItemQuantity_fraction_rejected :
  validate cart0 = true
  /\ has_item "p1" cart0 = true
  /\ 0 < 1 # 2
  /\ fst (updateItemQuantity 7 "p1" (1 # 2) world0) = inr ValidationError
  /\ stored (snd (updateItemQuantity 7 "p1" (1 # 2) world0)) = stored world0.
Proof. repeat split. Qed.

(** *** clearCart *)

(** C10. clearCart empties the items, resets the coupon and the discount
    and leaves tax and shipping as they were; when the save persists, the
    stored cart has subtotal 0, totalItems 0 and total
    max(0, tax + shipping), which is not zero when tax + shipping > 0; and
    the save persists for every cart that the schema accepts. *)
Theorem clearCart_totals (now : Z) (w : World) :
  let w' := snd (clearCart now w) in
  (items (this w') = [] /\ couponCode (this w') = None
   /\ discount (this w') = 0
   /\ tax (this w') = tax (this w) /\ shipping (this w') = shipping (this w))
  /\ (fst (clearCart now w) = inl tt ->
      stored w' = Some (this w')
      /\ subtotal (this w') == 0 /\ totalItems (this w') == 0
      /\ total (this w') == Qmax 0 (tax (this w) + shipping (this w))
      /\ (0 < tax (this w) + shipping (this w) -> ~ total (this w') == 0))
  /\ (validate (this w) = true -> fst (clearCart now w) = inl tt).
Proof.
  unfold clearCart, save. simpl.
  destruct (validate (set_coupon (set_items (this w) []) None 0)) eqn:V; simpl.
  - split; [repeat split|]. split; [|reflexivity].
    intros _. unfold lt.
    set (t := 0 + tax (this w) + shipping (this w) - 0).
    assert (Ht : t == tax (this w) + shipping (this w)) by (unfold t; ring).
    assert (Hm : (if negb (Qle_bool 0 t) then 0 else t)
                 == Qmax 0 (tax (this w) + shipping (this w))).
    { rewrite <- Ht. apply floor_at_zero. }
    repeat split; try reflexivity; [exact Hm|].
    intros Hpos Hz. rewrite Hm in Hz.
    assert (tax (this w) + shipping (this w)
            <= Qmax 0 (tax (this w) + shipping (this w))) by apply Q.le_max_r.
    lra.
  - split; [repeat split|]. split; [discriminate|].
    intros Hv. exfalso.
    unfold validate in *. simpl in V.
    repeat (apply andb_prop in Hv; destruct Hv as [Hv ?]).
    repeat match goal with H : le _ _ = true |- _ => rewrite H in V end.
    simpl in V. discriminate.
Qed.

Lemma clearCart_totals_witness :
  stored (snd (clearCart 7 world0)) = Some (this (snd (clearCart 7 world0)))
  /\ subtotal (this (snd (clearCart 7 world0))) == 0
  /\ totalItems (this (snd (clearCart 7 world0))) == 0
  /\ total (this (snd (clearCart 7 world0))) == Qmax 0 (2 + 5)
  /\ ~ total (this (snd (clearCart 7 world0))) == 0.
Proof.
  destruct (clearCart_totals 7 world0) as (_ & H & Hv).
  destruct (H (Hv eq_refl)) as (H1 & H2 & H3 & H4 & H5).
  repeat split; try assumption.
  apply H5. reflexivity.
Defined.

End CartProofs.

(** ** The product *)

Module ProductProofs.
Import JS Product.

Lemma totalRating_from (l : list Review) :
  forall a, fold_left (fun sum review => sum + rating review) l a
            == a + sum_ratings l.
Proof.
  induction l as [|r l IH]; intros a; simpl.
  - ring.
  - rewrite IH. ring.
Qed.

Lemma totalRating_sum (l : list Review) : totalRating l == sum_ratings l.
Proof. unfold totalRating. rewrite totalRating_from. ring. Qed.

(** [Math.round(x * 10) / 10] is [x] rounded to one decimal. *)
Lemma round_tenths (x : Q) :
  rounded_1_decimal x (inject_Z (Math_round (x * 10)) / 10).
Proof.
  unfold rounded_1_decimal, Math_round.
  set (k := Qfloor (x * 10 + (1 # 2))).
  pose proof (Qfloor_le (x * 10 + (1 # 2))) as Hlo.
  pose proof (Qlt_floor (x * 10 + (1 # 2))) as Hhi.
  fold k in Hlo, Hhi. rewrite inject_Z_plus in Hhi.
  change (inject_Z 1) with 1 in Hhi.
  split; [exists k; reflexivity|].
  assert (E : inject_Z k / 10 == inject_Z k * (1 # 10)) by (now field).
  rewrite E. split; lra.
Qed.

Lemma length_num_pos {A} (l : list A) :
  lt 0 (length_num l) = match l with [] => false | _ => true end.
Proof. destruct l; reflexivity. Qed.

(** The hook alone: the reviews are kept, the count is their number and
    the rating their mean rounded to one decimal, 0 without reviews. *)
Lemma pre_save_rating (p : Product) :
  reviews (pre_save p) = reviews p
  /\ reviewCount (pre_save p) == length_num (reviews p)
  /\ (reviews p = [] -> rating_ (pre_save p) == 0)
  /\ (reviews p <> [] ->
      rounded_1_decimal (mean_rating (reviews p)) (rating_ (pre_save p))).
Proof.
  unfold pre_save. rewrite length_num_pos.
  destruct (reviews p) as [|r l] eqn:E; simpl; rewrite E.
  - split; [reflexivity|]. split; [reflexivity|].
    split; [reflexivity | congruence].
  - split; [reflexivity|]. split; [reflexivity|].
    split; [discriminate|]. intros _.
    pose proof (round_tenths (totalRating (r :: l) / length_num (r :: l))) as H.
    unfold rounded_1_decimal in *. unfold mean_rating.
    now rewrite <- (totalRating_sum (r :: l)).
Qed.

Lemma product_save_inv (w w' : World) :
  save w = (inl tt, w') ->
  validate (this w) = true
  /\ w' = mkWorld (pre_save (this w)) (Some (pre_save (this w))).
Proof.
  unfold save. destruct (validate (this w)); intros H.
  - now inversion H.
  - discriminate.
Qed.

Lemma product_save_reviews (w : World) : reviews (this (snd (save w))) = reviews (this w).
Proof.
  unfold save. destruct (validate (this w)); simpl; [|reflexivity].
  apply pre_save_rating.
Qed.

(** C2. After any operation that persists a product (a save, or addReview
    which ends in one), the stored product is the document in memory, its
    reviewCount is the number of its reviews, and its rating is the mean of
    their ratings rounded to one decimal place, 0 when there is none,
    whatever the two fields held before. *)
Theorem persisted_product_rating (op : Op) (w w' : World) :
  run op w = (inl tt, w') ->
  stored w' = Some (this w')
  /\ reviewCount (this w') == length_num (reviews (this w'))
  /\ (reviews (this w') = [] -> rating_ (this w') == 0)
  /\ (reviews (this w') <> [] ->
      rounded_1_decimal (mean_rating (reviews (this w'))) (rating_ (this w'))).
Proof.
  intros H.
  assert (exists p, w' = mkWorld (pre_save p) (Some (pre_save p))) as [p ->].
  { destruct op; simpl in H; unfold addReview in H;
      apply product_save_inv in H; destruct H as [_ H]; eauto. }
  simpl. destruct (pre_save_rating p) as (H1 & H2 & H3 & H4).
  rewrite H1. auto.
Qed.

Example rating_of_three :
  rating_ (this (snd (addReview "u3" 4 None world0))) == 43 # 10.
Proof. reflexivity. Qed.

Example rating_of_a_half_tenth :
  rating_ (this (snd (addReview "u4" 4 None (snd (addReview "u3" 4 None world0)))))
  == 43 # 10.
Proof. reflexivity. Qed.

Lemma persisted_product_rating_witness :
  let w' := snd (run (OpAddReview "u3" 4 (Some " good "%string)) world0) in
  stored w' = Some (this w')
  /\ reviewCount (this w') == length_num (reviews (this w'))
  /\ (reviews (this w') = [] -> rating_ (this w') == 0)
  /\ (reviews (this w') <> [] ->
      rounded_1_decimal (mean_rating (reviews (this w'))) (rating_ (this w'))).
Proof.
  apply (@persisted_product_rating (OpAddReview "u3" 4 (Some " good "%string)) world0).
  vm_compute. reflexivity.
Defined.

(** *** addReview *)

Lemma filter_out_then_in {A} (f : A -> bool) (l : list A) :
  filter f (filter (fun x => negb (f x)) l) = [].
Proof.
  induction l as [|x l IH]; simpl; [reflexivity|].
  destruct (f x) eqn:E; simpl; [assumption|]. now rewrite E.
Qed.

Lemma filter_out_twice {A} (f : A -> bool) (l : list A) :
  filter (fun x => negb (f x)) (filter (fun x => negb (f x)) l)
  = filter (fun x => negb (f x)) l.
Proof.
  induction l as [|x l IH]; simpl; [reflexivity|].
  destruct (f x) eqn:E; simpl; [assumption|]. rewrite E. simpl. now rewrite IH.
Qed.

Lemma by_user_new_review (u : string) (r : Q) (c : option string) :
  by_user u (new_review u r c) = true.
Proof. unfold by_user. simpl. apply String.eqb_refl. Qed.

(** The reviews in memory after a call, whatever the save answers. *)
Lemma addReview_reviews_after (u : string) (r : Q) (c : option string) (w : World) :
  reviews (this (snd (addReview u r c w)))
  = addReview_reviews (reviews (this w)) u r c.
Proof. unfold addReview. now rewrite product_save_reviews. Qed.

Lemma addReview_reviews_own (u : string) (r : Q) (c : option string)
      (l : list Review) :
  filter (by_user u) (addReview_reviews l u r c) = [new_review u r c].
Proof.
  unfold addReview_reviews. rewrite filter_app, filter_out_then_in.
  simpl. now rewrite by_user_new_review.
Qed.

Lemma addReview_reviews_others (u : string) (r : Q) (c : option string)
      (l : list Review) :
  filter (fun x => negb (by_user u x)) (addReview_reviews l u r c)
  = filter (fun x => negb (by_user u x)) l.
Proof.
  unfold addReview_reviews. rewrite filter_app, filter_out_twice.
  simpl. rewrite by_user_new_review. simpl. apply app_nil_r.
Qed.

Lemma addReview_seq_others (u : string) (calls : list (Q * option string)) :
  forall w,
    filter (fun x => negb (by_user u x)) (reviews (this (addReview_seq u calls w)))
    = filter (fun x => negb (by_user u x)) (reviews (this w)).
Proof.
  induction calls as [|[r c] calls IH]; intros w; simpl; [reflexivity|].
  rewrite IH, addReview_reviews_after. apply addReview_reviews_others.
Qed.

(** C3. After any sequence of addReview calls by one user (the calls
    [calls], then a last call with rating [r] and comment [c]), the product
    holds exactly one review of that user, the one built from the last
    call: its rating is [r] and its comment the comment of that call as the
    schema stores it (the empty text when none was given, trimmed); the
    reviews of the other users are what they were, in the same order; and
    when the last save persists, the stored product is that document. *)
Theorem addReview_one_per_user (u : string) (calls : list (Q * option string))
        (r : Q) (c : option string) (w : World) :
  let res := addReview u r c (addReview_seq u calls w) in
  let rs := reviews (this (snd res)) in
  filter (by_user u) rs = [mkReview u r (Some (trim (or_str c EmptyString))) 0]
  /\ filter (fun x => negb (by_user u x)) rs
     = filter (fun x => negb (by_user u x)) (reviews (this w))
  /\ (fst res = inl tt -> stored (snd res) = Some (this (snd res))).
Proof.
  intros res rs. subst rs res.
  rewrite addReview_reviews_after.
  split; [apply addReview_reviews_own|]. split.
  - rewrite addReview_reviews_others. apply addReview_seq_others.
  - unfold addReview, save.
    destruct (validate _); simpl; [reflexivity | discriminate].
Qed.

Lemma addReview_one_per_user_witness :
  let res := addReview "u1" 2 (Some " poor "%string)
                       (addReview_seq "u1" [(5, None)] world0) in
  filter (by_user "u1") (reviews (this (snd res)))
  = [mkReview "u1" 2 (Some "poor"%string) 0]
  /\ filter (fun x => negb (by_user "u1" x)) (reviews (this (snd res)))
     = [mkReview "u2" 5 None 0]
  /\ stored (snd res) = Some (this (snd res)).
Proof.
  destruct (addReview_one_per_user "u1" [(5, None)] 2 (Some " poor "%string) world0)
    as (H1 & H2 & H3).
  split; [exact H1|]. split; [exact H2|]. apply H3. reflexivity.
Defined.

(** *** searchProducts *)

Lemma truthy_num_nonzero (m : Q) : ~ m == 0 -> truthy_num (Some m) = true.
Proof.
  intros H. simpl. destruct (Qeq_bool m 0) eqn:E; [|reflexivity].
  apply Qeq_bool_iff in E. contradiction.
Qed.

(** A bound that is supplied and is not zero reaches the query and
    bounds the price of every selected product, whether or not the other
    bound is there. *)
Lemma searchProducts_nonzero_bounds (tm : string -> Product -> bool)
      (query : option string) (filters : Filters) (p : Product) :
  matches tm (fst (searchProducts query filters)) p = true ->
  (forall m, f_minPrice filters = Some m -> ~ m == 0 -> m <= price p)
  /\ (forall m, f_maxPrice filters = Some m -> ~ m == 0 -> price p <= m).
Proof.
  unfold matches, searchProducts. simpl. intros H.
  repeat (apply andb_prop in H; destruct H as [H ?]).
  match goal with
  | Hp : context [price_matches] |- _ => rename Hp into HP
  end.
  split; intros m Hm Hz; rewrite Hm in HP;
    rewrite (truthy_num_nonzero Hz) in HP; simpl in HP;
    rewrite ?orb_true_r in HP; unfold price_matches in HP; simpl in HP.
  - destruct (if truthy_num (f_maxPrice filters) then f_maxPrice filters else None);
      simpl in HP; apply andb_prop in HP; destruct HP as [HP _];
      now apply Qle_bool_iff in HP.
  - destruct (if truthy_num (f_minPrice filters) then f_minPrice filters else None);
      simpl in HP; try (apply andb_prop in HP; destruct HP as [_ HP]);
      now apply Qle_bool_iff in HP.
Qed.

(** C5 at a bound of zero. With maxPrice 0 as the only filter the query
    carries no condition on the price, and a product priced 12 is
    selected; with minPrice 0 and maxPrice 100 the query carries the upper
    bound alone. *)
Theorem searchProducts_zero_bound_dropped :
  let only_max := mkFilters None None None (Some 0) false None in
  let both := mkFilters None None (Some 0) (Some 100) false None in
  q_price (fst (searchProducts None only_max)) = None
  /\ matches (fun _ _ => true) (fst (searchProducts None only_max)) product0 = true
  /\ ~ price product0 <= 0
  /\ q_price (fst (searchProducts None both)) = Some (mkPriceCond None (Some 100)).
Proof.
  repeat split. intros H. vm_compute in H. now apply H.
Qed.

End ProductProofs.

(** ** Registration, login and the token secret *)

Module AuthProofs.
Import JS User Auth.
Local Open Scope string_scope.

Lemma truthy_some (s : string) : s <> EmptyString -> truthy_str (Some s) = true.
Proof.
  intros H. simpl. destruct (String.eqb s EmptyString) eqn:E; [|reflexivity].
  apply String.eqb_eq in E. contradiction.
Qed.

Lemma or_str_some (s : string) : or_str (Some s) EmptyString = s.
Proof.
  simpl. destruct (String.eqb s EmptyString) eqn:E; [|reflexivity].
  apply String.eqb_eq in E. now subst.
Qed.

Lemma long_nonempty (s : string) (n : nat) :
  (S n <= String.length s)%nat -> s <> EmptyString.
Proof. intros H ->. simpl in H. lia. Qed.

Lemma find_none_existsb {A} (f : A -> bool) (l : list A) :
  find f l = None -> existsb f l = false.
Proof.
  induction l as [|x l IH]; simpl; [reflexivity|].
  destruct (f x); [discriminate | assumption].
Qed.

(** A body with an email and a password of six characters or more, whose
    email is free and whose document passes the validators, is stored;
    the answer then depends on the token alone. *)
Lemma register_stores (lib : Lib) (env : Env) (now : Z) (db : Collection)
      (body : Body) (e pw : string) :
  b_email body = Some e -> e <> EmptyString ->
  b_password body = Some pw -> (6 <= String.length pw)%nat ->
  findOne_email db (toLowerCase e) = None ->
  validate (candidate lib db body) = true ->
  register lib env now db body
  = match generateToken lib env (_id (created lib now db body))
                        (email (created lib now db body)) with
    | inr ex => (server_error lib env "Server error during registration" ex,
                 (db ++ [created lib now db body])%list)
    | inl tok => (mkResponse 201 (Some true) "User created successfully" None None
                             (Some tok)
                             (Some (getPublicProfile (created lib now db body)))
                             None,
                  (db ++ [created lib now db body])%list)
    end.
Proof.
  intros He Hne Hp Hlen Hfree Hval.
  unfold register, created, candidate in *.
  rewrite He, Hp in *.
  rewrite (truthy_some Hne), (truthy_some (long_nonempty Hlen)).
  rewrite !or_str_some in *. simpl negb. simpl orb. cbv iota.
  assert ((String.length pw <? 6)%nat = false) as -> by (apply Nat.ltb_ge; lia).
  rewrite Hfree.
  unfold save_new. rewrite Hval.
  unfold findOne_email in Hfree. apply find_none_existsb in Hfree.
  simpl. rewrite Hfree.
  destruct (generateToken _ _ _ _); reflexivity.
Qed.

(** *** Login *)

(** C6, as the code has it. A login with the email of an active user and
    a non-empty wrong password, and a login with a non-empty password and
    an email that matches no user, are both answered with status 400 and
    the message 'Invalid email or password'; the first names the field
    'password', the second the field 'email'; neither changes the
    collection. *)
Theorem login_generic_failure (lib : Lib) (env : Env) (now : Z) (db : Collection)
        (b1 b2 : Body) (e1 pw1 e2 pw2 : string) (u : User) :
  b_email b1 = Some e1 -> e1 <> EmptyString ->
  b_password b1 = Some pw1 -> pw1 <> EmptyString ->
  findOne_email db (toLowerCase e1) = Some u ->
  isActive u = true ->
  bcrypt_compare lib pw1 (password u) = false ->
  b_email b2 = Some e2 -> e2 <> EmptyString ->
  b_password b2 = Some pw2 -> pw2 <> EmptyString ->
  findOne_email db (toLowerCase e2) = None ->
  login lib env now db b1 = (failure 400 "Invalid email or password" "password", db)
  /\ login lib env now db b2 = (failure 400 "Invalid email or password" "email", db)
  /\ status (fst (login lib env now db b1)) = status (fst (login lib env now db b2))
  /\ message (fst (login lib env now db b1)) = message (fst (login lib env now db b2))
  /\ field (fst (login lib env now db b1)) <> field (fst (login lib env now db b2)).
Proof.
  intros He1 Hn1 Hp1 Hq1 Hu Hact Hcmp He2 Hn2 Hp2 Hq2 Hnone.
  assert (L1 : login lib env now db b1
               = (failure 400 "Invalid email or password" "password", db)).
  { unfold login. rewrite He1, Hp1, (truthy_some Hn1), (truthy_some Hq1).
    rewrite !or_str_some. simpl negb. simpl orb. cbv iota.
    rewrite Hu, Hact, Hcmp. reflexivity. }
  assert (L2 : login lib env now db b2
               = (failure 400 "Invalid email or password" "email", db)).
  { unfold login. rewrite He2, Hp2, (truthy_some Hn2), (truthy_some Hq2).
    rewrite !or_str_some. simpl negb. simpl orb. cbv iota.
    rewrite Hnone. reflexivity. }
  rewrite L1, L2. repeat split. discriminate.
Qed.

Lemma login_generic_failure_witness :
  login lib0 env0 9 db0 (mkBody None (Some "Ann@x.com") (Some "guess") None)
  = (failure 400 "Invalid email or password" "password", db0)
  /\ login lib0 env0 9 db0 (mkBody None (Some "eve@x.com") (Some "guess") None)
     = (failure 400 "Invalid email or password" "email", db0).
Proof.
  destruct (@login_generic_failure lib0 env0 9%Z db0
              (mkBody None (Some "Ann@x.com") (Some "guess") None)
              (mkBody None (Some "eve@x.com") (Some "guess") None)
              "Ann@x.com" "guess" "eve@x.com" "guess"
              (mkUser "id1" "Ann" "ann@x.com" "$2a$12$secret1" "user"
                      None None true None (Some 0%Z)))
    as (H1 & H2 & _);
    try reflexivity; try discriminate.
  split; assumption.
Defined.

(** C6 as stated fails: the email of a deactivated user with a wrong
    password is answered with status 403 and the deactivation message,
    an unknown email with status 400 and the generic message. *)
Lemma login_deactivated_differs :
  let known := mkBody None (Some "bob@x.com") (Some "guess") None in
  let unknown := mkBody None (Some "eve@x.com") (Some "guess") None in
  (exists u, findOne_email db0 (toLowerCase "bob@x.com") = Some u
             /\ bcrypt_compare lib0 "guess" (password u) = false)
  /\ findOne_email db0 (toLowerCase "eve@x.com") = None
  /\ status (fst (login lib0 env0 9 db0 known)) = 403%nat
  /\ status (fst (login lib0 env0 9 db0 unknown)) = 400%nat
  /\ message (fst (login lib0 env0 9 db0 known))
     <> message (fst (login lib0 env0 9 db0 unknown)).
Proof.
  repeat split; try discriminate.
  eexists. split; reflexivity.
Qed.

(** *** Registration *)

(** C7, as the code has it. For a body with an email and a password: a
    password of fewer than six characters is answered with status 400 and
    the field 'password', and no user is created; a password of six
    characters or more, with an email that is free, a document that passes
    the validators of the schema (a role that is absent, 'user' or
    'admin'; a name, or else an email prefix, that is not blank) and a
    configured token secret, is answered with status 201, the token and
    the profile, and the user is created. *)
Theorem register_password_length (lib : Lib) (env : Env) (now : Z) (db : Collection)
        (body : Body) (e pw : string) :
  b_email body = Some e -> e <> EmptyString -> b_password body = Some pw ->
  ((String.length pw < 6)%nat ->
   exists msg, register lib env now db body = (failure 400 msg "password", db))
  /\ ((6 <= String.length pw)%nat ->
      findOne_email db (toLowerCase e) = None ->
      validate (candidate lib db body) = true ->
      forall secret, JWT_SECRET env = Some secret -> secret <> EmptyString ->
      register lib env now db body
      = (mkResponse 201 (Some true) "User created successfully" None None
           (Some (jwt_sign lib (mkPayload (_id (created lib now db body))
                                          (email (created lib now db body)))
                           secret "7d"))
           (Some (getPublicProfile (created lib now db body))) None,
         (db ++ [created lib now db body])%list)).
Proof.
  intros He Hne Hp. split.
  - intros Hlen. unfold register. rewrite He, Hp, (truthy_some Hne).
    destruct (string_dec pw EmptyString) as [-> | Hpw].
    + eexists. reflexivity.
    + rewrite (truthy_some Hpw), !or_str_some.
      simpl negb. simpl orb. cbv iota.
      assert ((String.length pw <? 6)%nat = true) as -> by (now apply Nat.ltb_lt).
      eexists. reflexivity.
  - intros Hlen Hfree Hval secret Hs Hsne.
    rewrite (register_stores lib env now db body He Hne Hp Hlen Hfree Hval).
    unfold generateToken, generateToken_secret. rewrite Hs.
    destruct (String.eqb secret EmptyString) eqn:E; [|reflexivity].
    apply String.eqb_eq in E. contradiction.
Qed.

Lemma register_password_length_witness :
  (exists msg,
      register lib0 env0 9 db0 (mkBody None (Some "Cy@x.com") (Some "12345") None)
      = (failure 400 msg "password", db0))
  /\ status (fst (register lib0 env0 9 db0
                           (mkBody None (Some "Cy@x.com") (Some "123456") None)))
     = 201%nat.
Proof.
  split.
  - apply (proj1 (@register_password_length lib0 env0 9%Z db0
                    (mkBody None (Some "Cy@x.com") (Some "12345") None)
                    "Cy@x.com" "12345" eq_refl ltac:(discriminate) eq_refl)).
    simpl. lia.
  - rewrite (proj2 (@register_password_length lib0 env0 9%Z db0
                      (mkBody None (Some "Cy@x.com") (Some "123456") None)
                      "Cy@x.com" "123456" eq_refl ltac:(discriminate) eq_refl)
                   ltac:(simpl; lia) eq_refl eq_refl "s3cret" eq_refl
                   ltac:(discriminate)).
    reflexivity.
Defined.

(** C7 as stated fails: a password of six characters and a free email,
    with a role that the schema does not accept, is answered with status
    500 and no user is created. *)
Lemma register_length_6_rejected :
  let body := mkBody None (Some "cy@x.com") (Some "123456") (Some "root") in
  findOne_email db0 (toLowerCase "cy@x.com") = None
  /\ String.length "123456" = 6%nat
  /\ status (fst (register lib0 env0 9 db0 body)) = 500%nat
  /\ snd (register lib0 env0 9 db0 body) = db0.
Proof. repeat split. Qed.

Lemma validate_role (u : User) :
  validate u = true -> role u = "user" \/ role u = "admin".
Proof.
  unfold validate. intros H.
  apply andb_prop in H. destruct H as [_ H].
  apply orb_prop in H. destruct H as [H | H]; apply String.eqb_eq in H; auto.
Qed.

(** [register] stores nothing, or one user whose role is
    [role || 'user']. *)
Lemma register_created_role (lib : Lib) (env : Env) (now : Z) (db : Collection)
      (body : Body) :
  snd (register lib env now db body) = db
  \/ exists u, snd (register lib env now db body) = (db ++ [u])%list
               /\ role u = or_str (b_role body) "user"
               /\ (role u = "user" \/ role u = "admin").
Proof.
  unfold register.
  destruct (negb (truthy_str (b_email body)) || negb (truthy_str (b_password body)));
    [now left|].
  destruct (String.length (or_str (b_password body) "") <? 6)%nat; [now left|].
  destruct (findOne_email db _); [now left|].
  unfold save_new.
  match goal with |- context [validate ?c] => destruct (validate c) eqn:V end;
    [|now left].
  match goal with |- context [existsb ?f db] => destruct (existsb f db) end;
    [now left|].
  right. eexists.
  split; [destruct (generateToken _ _ _ _); reflexivity|].
  split; [reflexivity|].
  apply validate_role in V. exact V.
Qed.

(** C9, as the code has it. Whenever registration creates a user, the
    role of that user is the role of the body when the body supplies a
    non-empty one, which is then 'user' or 'admin', and 'user' when the
    body omits the role or supplies the empty text; and a body that asks
    for 'admin', with an email, a password of six characters or more, a
    free email and a document that passes the validators, creates an
    admin. *)
Theorem register_role (lib : Lib) (env : Env) (now : Z) (db : Collection)
        (body : Body) :
  (forall u, snd (register lib env now db body) = (db ++ [u])%list ->
     (forall v, b_role body = Some v -> v <> EmptyString ->
                role u = v /\ (v = "user" \/ v = "admin"))
     /\ (b_role body = None \/ b_role body = Some EmptyString -> role u = "user"))
  /\ (forall e pw,
        b_email body = Some e -> e <> EmptyString ->
        b_password body = Some pw -> (6 <= String.length pw)%nat ->
        findOne_email db (toLowerCase e) = None ->
        b_role body = Some "admin" ->
        validate (candidate lib db body) = true ->
        exists u, snd (register lib env now db body) = (db ++ [u])%list
                  /\ role u = "admin").
Proof.
  split.
  - intros u Hu.
    assert (Hr : role u = or_str (b_role body) "user"
                 /\ (role u = "user" \/ role u = "admin")).
    { destruct (register_created_role lib env now db body) as [H | (u' & H & R)].
      - rewrite H in Hu. exfalso.
        apply (f_equal (@List.length User)) in Hu.
        rewrite length_app in Hu. simpl in Hu. lia.
      - rewrite H in Hu. apply app_inv_head in Hu. inversion Hu. now subst. }
    destruct Hr as [Hr Henum]. split.
    + intros v Hv Hne. rewrite Hv in Hr. simpl in Hr.
      destruct (String.eqb v "") eqn:E.
      * apply String.eqb_eq in E. contradiction.
      * rewrite Hr in Henum. auto.
    + intros [Hn | Hn]; rewrite Hn in Hr; exact Hr.
  - intros e pw He Hne Hp Hlen Hfree Hrole Hval.
    exists (created lib now db body). split.
    + rewrite (register_stores lib env now db body He Hne Hp Hlen Hfree Hval).
      destruct (generateToken _ _ _ _); reflexivity.
    + unfold created, candidate. simpl. now rewrite Hrole.
Qed.

Lemma register_role_witness :
  let body := mkBody (Some "Dee") (Some "dee@x.com") (Some "123456") (Some "admin") in
  (role (created lib0 9 db0 body) = "admin" /\ ("admin" = "user" \/ "admin" = "admin"))
  /\ exists u, snd (register lib0 env0 9 db0 body) = (db0 ++ [u])%list
               /\ role u = "admin".
Proof.
  split.
  - apply (proj1 (proj1 (register_role lib0 env0 9%Z db0
                           (mkBody (Some "Dee") (Some "dee@x.com") (Some "123456")
                                   (Some "admin")))
                        (created lib0 9 db0
                           (mkBody (Some "Dee") (Some "dee@x.com") (Some "123456")
                                   (Some "admin")))
                        eq_refl)
                 "admin" eq_refl).
    discriminate.
  - apply (proj2 (register_role lib0 env0 9%Z db0
                    (mkBody (Some "Dee") (Some "dee@x.com") (Some "123456")
                            (Some "admin")))
                 "dee@x.com" "123456");
      try reflexivity; try discriminate.
Defined.

(** C9 as stated fails: a body that supplies the empty text as its role
    creates a user whose role is 'user'. *)
Lemma register_empty_role_defaults :
  let body := mkBody None (Some "cy@x.com") (Some "123456") (Some "") in
  b_role body <> None
  /\ exists u, snd (register lib0 env0 9 db0 body) = (db0 ++ [u])%list
               /\ role u = "user".
Proof.
  split; [discriminate|]. eexists. split; reflexivity.
Qed.

(** *** The secret of the tokens *)

(** With a configured, non-empty secret the two sides use the same
    one. *)
Lemma secrets_agree_when_set (env : Env) (secret : string) :
  JWT_SECRET env = Some secret -> secret <> EmptyString ->
  generateToken_secret env = Some (auth_secret env).
Proof.
  unfold generateToken_secret, auth_secret. intros -> H. simpl.
  destruct (String.eqb secret "") eqn:E; [|reflexivity].
  apply String.eqb_eq in E. contradiction.
Qed.

Lemma substring_all (s : string) : String.substring 0 (String.length s) s = s.
Proof. induction s as [|c s IH]; simpl; [reflexivity | now rewrite IH]. Qed.

Lemma remove_first_at_head (pat s : string) :
  String.prefix pat s = true ->
  remove_first pat s
  = String.substring (String.length pat) (String.length s - String.length pat) s.
Proof. intros H. destruct s; cbn [remove_first]; now rewrite H. Qed.

Lemma strip_bearer (tok : string) : remove_first "Bearer " ("Bearer " ++ tok) = tok.
Proof.
  rewrite remove_first_at_head.
  - simpl. rewrite Nat.sub_0_r. apply substring_all.
  - simpl. now destruct tok.
Qed.

(** The auth middleware verifies against [auth_secret]: a bearer token
    which that secret verifies for a user of the collection is let
    through. *)
Lemma auth_verifies_with_auth_secret (lib : Lib) (env : Env) (db : Collection)
      (tok : string) (decoded : Payload) (user : User) :
  jwt_verify lib tok (auth_secret env) = Some decoded ->
  findById db (Auth.userId decoded) = Some user ->
  auth lib env db (Some ("Bearer " ++ tok))
  = Next (Auth.userId decoded, without_password user).
Proof.
  intros Hv Hf. unfold auth.
  change (truthy_str (Some ("Bearer " ++ tok))) with true. simpl negb. cbv iota.
  rewrite or_str_some, strip_bearer. now rewrite Hv, Hf.
Qed.

(** C8 with the secret unset. [generateToken] hands no secret to
    [jwt.sign], which throws, so no token is issued, whereas the auth
    middleware verifies against the fixed value 'your-secret-key': the two
    secrets differ. *)
Theorem token_secret_unset (lib : Lib) (uid em : string) :
  generateToken_secret env_unset = None
  /\ auth_secret env_unset = "your-secret-key"
  /\ generateToken_secret env_unset <> Some (auth_secret env_unset)
  /\ generateToken lib env_unset uid em = inr SecretOrPrivateKeyMissing.
Proof. repeat split. discriminate. Qed.

(** With the secret unset, a registration that passes every check stores
    the user and is then answered with status 500. *)
Example register_without_secret :
  let body := mkBody None (Some "cy@x.com") (Some "123456") None in
  status (fst (register lib0 env_unset 9 db0 body)) = 500%nat
  /\ List.length (snd (register lib0 env_unset 9 db0 body)) = 3%nat.
Proof. split; reflexivity. Qed.

End AuthProofs.

(** ** The cart: further properties *)

Module CartExtra.
Import JS Cart CartMore CartProofs.

Lemma le_true (a b : Q) : le a b = true <-> a <= b.
Proof. apply Qle_bool_iff. Qed.

Lemma le_false (a b : Q) : le a b = false <-> b < a.
Proof.
  unfold le. split; intros H.
  - apply Qnot_le_lt. intro L. apply Qle_bool_iff in L. congruence.
  - destruct (Qle_bool a b) eqn:E; [|reflexivity].
    apply Qle_bool_iff in E. lra.
Qed.

Lemma validate_item_relined (it : CartItem) :
  validate_item it = true -> validate_item (relined it) = true.
Proof.
  unfold validate_item. simpl. intros H.
  apply andb_prop in H. destruct H as [H H3].
  apply andb_prop in H. destruct H as [H1 H2].
  rewrite H1, H2. simpl. apply le_true.
  apply le_true in H1. apply le_true in H2.
  apply Qmult_le_0_compat; lra.
Qed.

Lemma sum_line_nonneg (l : list CartItem) :
  forallb validate_item l = true -> 0 <= sum_over line l.
Proof.
  induction l as [|it l IH]; simpl; intros H; [lra|].
  apply andb_prop in H. destruct H as [H Hl].
  apply validate_item_relined in H. unfold validate_item in H. simpl in H.
  apply andb_prop in H. destruct H as [_ H]. apply le_true in H.
  specialize (IH Hl). unfold line at 1. lra.
Qed.

Lemma sum_quantity_nonneg (l : list CartItem) :
  forallb validate_item l = true -> 0 <= sum_over quantity l.
Proof.
  induction l as [|it l IH]; simpl; intros H; [lra|].
  apply andb_prop in H. destruct H as [H Hl].
  unfold validate_item in H.
  apply andb_prop in H. destruct H as [H _].
  apply andb_prop in H. destruct H as [H _]. apply le_true in H.
  specialize (IH Hl). lra.
Qed.

Lemma forallb_relined (l : list CartItem) :
  forallb validate_item l = true -> forallb validate_item (map relined l) = true.
Proof.
  induction l as [|it l IH]; simpl; intros H; [reflexivity|].
  apply andb_prop in H. destruct H as [H Hl].
  now rewrite (validate_item_relined _ H), IH.
Qed.

(** The hook keeps a valid document valid. *)
Lemma pre_save_valid (now : Z) (c : Cart) :
  validate c = true -> validate (pre_save now c) = true.
Proof.
  intros V.
  pose proof (pre_save_items now c) as Hit.
  pose proof (pre_save_totals now c) as [H1 H2 _ H4].
  unfold validate in V.
  repeat (apply andb_prop in V; destruct V as [V ?]).
  assert (tax (pre_save now c) = tax c /\ shipping (pre_save now c) = shipping c
          /\ discount (pre_save now c) = discount c) as (Et & Es & Ed).
  { unfold pre_save.
    destruct (fold_left hook_step (items c) (0, 0, [])) as [[sub cnt] its].
    simpl. auto. }
  unfold validate. rewrite Et, Es, Ed, Hit.
  rewrite (forallb_relined _ V).
  repeat match goal with H : le _ _ = true |- _ => rewrite H end.
  rewrite Hit, sum_line_relined in H1. rewrite Hit, sum_quantity_relined in H2.
  pose proof (sum_line_nonneg _ V). pose proof (sum_quantity_nonneg _ V).
  assert (le 0 (subtotal (pre_save now c)) = true) as -> by (apply le_true; lra).
  assert (le 0 (totalItems (pre_save now c)) = true) as -> by (apply le_true; lra).
  assert (le 0 (total (pre_save now c)) = true) as ->.
  { apply le_true. rewrite H4. apply Q.le_max_l. }
  reflexivity.
Qed.

Lemma run_persisted (now : Z) (op : Op) (w w' : World) :
  run now op w = (inl tt, w') ->
  exists c, validate c = true /\ w' = persisted now c.
Proof.
  intros H.
  destruct op; simpl in H;
    unfold addItem, updateItemQuantity, removeItem, clearCart,
           applyCoupon, removeCoupon in H;
    try (apply cart_save_inv in H; destruct H as [V H]; eauto).
  destruct (0 <=? findIndex (same_product pid) (items (this w)))%Z;
    [apply cart_save_inv in H; destruct H as [V H]; eauto | discriminate].
Qed.

(** X1. Every cart that an operation persists passes the validators of the
    schema again, so that a plain save of it succeeds. *)
Theorem persisted_cart_valid (now : Z) (op : Op) (w w' : World) :
  run now op w = (inl tt, w') ->
  validate (this w') = true /\ forall now', fst (save now' w') = inl tt.
Proof.
  intros H. destruct (run_persisted _ _ _ H) as (c & V & ->).
  assert (V' : validate (this (persisted now c)) = true)
    by (apply pre_save_valid, V).
  split; [exact V'|]. intros now'. now rewrite (cart_save_valid now' _ V').
Qed.

Lemma persisted_cart_valid_witness :
  validate (this (snd (run 7 (OpRemoveItem "p2") world0))) = true
  /\ forall now', fst (save now' (snd (run 7 (OpRemoveItem "p2") world0))) = inl tt.
Proof.
  apply (@persisted_cart_valid 7 (OpRemoveItem "p2") world0). reflexivity.
Defined.

Lemma hook_step_relined (acc : Q * Q * list CartItem) (it : CartItem) :
  hook_step acc (relined it) = hook_step acc it.
Proof. destruct acc as [[s n] d]. reflexivity. Qed.

Lemma hook_fold_relined (l : list CartItem) :
  forall acc, fold_left hook_step (map relined l) acc = fold_left hook_step l acc.
Proof.
  induction l as [|it l IH]; intros acc; simpl; [reflexivity|].
  now rewrite hook_step_relined, IH.
Qed.

Lemma pre_save_unfold (now : Z) (c : Cart) :
  pre_save now c
  = let r := fold_left hook_step (items c) (0, 0, []) in
    mkCart (userId c) (snd r) (fst (fst r)) (tax c) (shipping c) (discount c)
           (if lt (fst (fst r) + tax c + shipping c - discount c) 0 then 0
            else fst (fst r) + tax c + shipping c - discount c)
           (snd (fst r)) (couponCode c) (isActive c) now.
Proof.
  unfold pre_save.
  destruct (fold_left hook_step (items c) (0, 0, [])) as [[sub cnt] its].
  reflexivity.
Qed.

(** The hook reads the items (but not their line totals), tax, shipping,
    discount and the fields it copies; two documents that agree on these
    leave it equal. *)
Lemma pre_save_ext (now : Z) (a b : Cart) :
  userId a = userId b ->
  items a = map relined (items b) \/ items a = items b ->
  tax a = tax b -> shipping a = shipping b -> discount a = discount b ->
  couponCode a = couponCode b -> isActive a = isActive b ->
  pre_save now a = pre_save now b.
Proof.
  intros Hu Hi Ht Hs Hd Hc Ha.
  rewrite !pre_save_unfold.
  assert (fold_left hook_step (items a) (0, 0, [])
          = fold_left hook_step (items b) (0, 0, [])) as ->.
  { destruct Hi as [-> | ->]; [apply hook_fold_relined | reflexivity]. }
  simpl. now rewrite Hu, Ht, Hs, Hd, Hc, Ha.
Qed.

Lemma pre_save_frame (now : Z) (c : Cart) :
  userId (pre_save now c) = userId c /\ tax (pre_save now c) = tax c
  /\ shipping (pre_save now c) = shipping c
  /\ discount (pre_save now c) = discount c
  /\ couponCode (pre_save now c) = couponCode c
  /\ isActive (pre_save now c) = isActive c
  /\ lastModified (pre_save now c) = now.
Proof. rewrite pre_save_unfold. simpl. repeat split. Qed.

Lemma pre_save_twice (n1 n2 : Z) (c : Cart) :
  pre_save n2 (pre_save n1 c) = pre_save n2 c.
Proof.
  destruct (pre_save_frame n1 c) as (H1 & H2 & H3 & H4 & H5 & H6 & _).
  apply pre_save_ext; auto. left. apply pre_save_items.
Qed.

(** X2. Saving a valid cart and saving it again, with nothing done in between,
    succeeds and stores the document of the first save with a new
    [lastModified] and nothing else changed. *)
Theorem save_again (n1 n2 : Z) (w : World) :
  validate (this w) = true ->
  save n2 (snd (save n1 w))
  = (inl tt, mkWorld (set_lastModified (pre_save n1 (this w)) n2)
                     (Some (set_lastModified (pre_save n1 (this w)) n2))).
Proof.
  intros V. rewrite (cart_save_valid n1 w V). simpl snd.
  rewrite cart_save_valid by (apply pre_save_valid, V).
  unfold persisted. simpl this. rewrite pre_save_twice.
  assert (pre_save n2 (this w) = set_lastModified (pre_save n1 (this w)) n2) as ->
    by (rewrite !pre_save_unfold; reflexivity).
  reflexivity.
Qed.

Lemma save_again_witness :
  save 9 (snd (save 7 world0))
  = (inl tt, mkWorld (set_lastModified (pre_save 7 cart0) 9)
                     (Some (set_lastModified (pre_save 7 cart0) 9))).
Proof. apply (@save_again 7 9 world0). reflexivity. Defined.

Lemma cart_save_fail_inv (now : Z) (w0 w' : World) (e : Error) :
  save now w0 = (inr e, w') -> e = ValidationError /\ w' = w0.
Proof.
  unfold save. destruct (validate (this w0)); intros H; inversion H; auto.
Qed.

(** X3. An operation that fails leaves the stored cart as it was; the not-found
    failure leaves the document in memory as it was too, and only
    updateItemQuantity for a product without an item produces it. *)
Theorem failed_operation_keeps_store (now : Z) (op : Op) (w w' : World) (e : Error) :
  run now op w = (inr e, w') ->
  stored w' = stored w
  /\ (e = ItemNotFound ->
      w' = w /\ exists pid q, op = OpUpdateItemQuantity pid q
                              /\ has_item pid (this w) = false).
Proof.
  intros H.
  destruct op; simpl in H;
    unfold addItem, updateItemQuantity, removeItem, clearCart,
           applyCoupon, removeCoupon in H;
    try (apply cart_save_fail_inv in H; destruct H as [-> ->];
         split; [reflexivity | discriminate]).
  destruct (0 <=? findIndex (same_product pid) (items (this w)))%Z eqn:E.
  - apply cart_save_fail_inv in H. destruct H as [-> ->].
    split; [reflexivity | discriminate].
  - injection H as He Hw. subst e w'.
    split; [reflexivity|]. intros _. split; [reflexivity|].
    exists pid, qty. split; [reflexivity|].
    unfold has_item. destruct (existsb (same_product pid) (items (this w))) eqn:X;
      [|reflexivity].
    destruct (@findIndex_present pid 0 (items (this w)) 0%Z (Z.le_refl 0) X)
      as (H1 & _).
    apply Z.leb_gt in E. unfold findIndex in E. lia.
Qed.

Lemma failed_operation_keeps_store_witness :
  stored (snd (run 7 (OpApplyCoupon "X" (-1)) world0)) = stored world0
  /\ snd (run 7 (OpUpdateItemQuantity "p9" 2) world0) = world0.
Proof.
  split.
  - apply (proj1 (@failed_operation_keeps_store 7 (OpApplyCoupon "X" (-1)) world0
                    _ ValidationError eq_refl)).
  - apply (proj2 (@failed_operation_keeps_store 7 (OpUpdateItemQuantity "p9" 2)
                    world0 _ ItemNotFound eq_refl) eq_refl).
Defined.

(** *** One item per product *)

Lemma ids_update_nth (g : CartItem -> CartItem) (l : list CartItem) :
  (forall it, productId (g it) = productId it) ->
  forall n, map productId (update_nth g l n) = map productId l.
Proof.
  intros Hg. induction l as [|it l IH]; intros [|n]; simpl; try reflexivity.
  - now rewrite Hg.
  - now rewrite IH.
Qed.

Lemma in_ids_splice1 (x : string) (l : list CartItem) :
  forall n, In x (map productId (splice1 l n)) -> In x (map productId l).
Proof.
  induction l as [|it l IH]; intros [|n] Hx; simpl in *; auto.
  destruct Hx as [Hx | Hx]; [auto | right; eapply IH; eauto].
Qed.

Lemma NoDup_ids_splice1 (l : list CartItem) :
  forall n, NoDup (map productId l) -> NoDup (map productId (splice1 l n)).
Proof.
  induction l as [|it l IH]; intros [|n] H; simpl in *; try assumption.
  - now inversion H.
  - inversion H as [|? ? Hin Hnd]; subst. constructor; [|now apply IH].
    intros Hx. apply Hin. eapply in_ids_splice1; eauto.
Qed.

Lemma NoDup_ids_filter (f : CartItem -> bool) (l : list CartItem) :
  NoDup (map productId l) -> NoDup (map productId (filter f l)).
Proof.
  induction l as [|it l IH]; simpl; intros H; [assumption|].
  inversion H as [|? ? Hin Hnd]; subst.
  destruct (f it); simpl; [|now apply IH].
  constructor; [|now apply IH].
  intros Hx. apply Hin. apply in_map_iff in Hx. destruct Hx as (x & E & Hx).
  apply filter_In in Hx. apply in_map_iff. exists x. tauto.
Qed.

Lemma absent_not_in_ids (pid : string) (l : list CartItem) :
  existsb (same_product pid) l = false -> ~ In pid (map productId l).
Proof.
  induction l as [|it l IH]; simpl; intros H; [tauto|].
  apply orb_false_elim in H. destruct H as [H1 H2].
  intros [E | Hin]; [|now apply IH].
  unfold same_product in H1. rewrite E, String.eqb_refl in H1. discriminate.
Qed.

Lemma NoDup_snoc {A} (l : list A) (x : A) :
  NoDup l -> ~ In x l -> NoDup (l ++ [x]).
Proof.
  induction l as [|y l IH]; simpl; intros H Hx.
  - constructor; [tauto | constructor].
  - inversion H; subst. constructor.
    + rewrite in_app_iff. simpl. intuition congruence.
    + apply IH; tauto.
Qed.

Lemma findIndex_negative (pid : string) (l : list CartItem) :
  (0 <=? findIndex (same_product pid) l)%Z = false ->
  existsb (same_product pid) l = false.
Proof.
  intros E. destruct (existsb (same_product pid) l) eqn:X; [|reflexivity].
  destruct (@findIndex_present pid 0 l 0%Z (Z.le_refl 0) X) as (H1 & _).
  apply Z.leb_gt in E. unfold findIndex in E. lia.
Qed.

Lemma ids_relined (l : list CartItem) :
  map productId (map relined l) = map productId l.
Proof. induction l as [|it l IH]; simpl; [reflexivity | now rewrite IH]. Qed.

Lemma save_ids (now : Z) (w0 : World) :
  product_ids (this (snd (save now w0))) = product_ids (this w0).
Proof.
  unfold save, product_ids. destruct (validate (this w0)); simpl; [|reflexivity].
  now rewrite pre_save_items, ids_relined.
Qed.

(** X4. A cart whose items have pairwise different products keeps that
    property through every operation, whether the operation persists or
    fails: addItem merges into the item of a product it finds and appends
    only for a product it does not find. *)
Theorem one_item_per_product (now : Z) (op : Op) (w : World) :
  NoDup (product_ids (this w)) ->
  NoDup (product_ids (this (snd (run now op w)))).
Proof.
  intros H.
  destruct op; simpl;
    unfold addItem, updateItemQuantity, removeItem, clearCart,
           applyCoupon, removeCoupon;
    try (rewrite save_ids; unfold product_ids in *; simpl; try assumption).
  - (* addItem *)
    destruct (0 <=? findIndex (same_product pid) (items (this w)))%Z eqn:E.
    + now rewrite ids_update_nth.
    + rewrite map_app. simpl. apply NoDup_snoc; [assumption|].
      apply absent_not_in_ids, findIndex_negative, E.
  - (* updateItemQuantity *)
    destruct (0 <=? findIndex (same_product pid) (items (this w)))%Z eqn:E;
      [|assumption].
    rewrite save_ids. unfold product_ids in *. simpl.
    destruct (le qty 0).
    + now apply NoDup_ids_splice1.
    + now rewrite ids_update_nth.
  - (* removeItem *) now apply NoDup_ids_filter.
  - (* clearCart *) constructor.
Qed.

Lemma one_item_per_product_witness :
  NoDup (product_ids (this (snd (run 7 (OpAddItem "p1" None 11) world0)))).
Proof.
  apply (@one_item_per_product 7 (OpAddItem "p1" None 11) world0).
  repeat constructor; simpl; intuition discriminate.
Defined.

(** *** addItem *)

Lemma findIndex_update_first (pid : string) (g : CartItem -> CartItem)
      (l : list CartItem) :
  forall k, (0 <= k)%Z -> existsb (same_product pid) l = true ->
    update_nth g l (Z.to_nat (findIndex_from (same_product pid) l k - k))
    = update_first pid g l.
Proof.
  induction l as [|it l IH]; intros k Hk H; simpl in *; [discriminate|].
  destruct (same_product pid it) eqn:E.
  - rewrite Z.sub_diag. reflexivity.
  - simpl in H.
    destruct (@findIndex_present pid 0 l (k + 1)%Z ltac:(lia) H) as (H1 & _).
    specialize (IH (k + 1)%Z ltac:(lia) H).
    set (i := findIndex_from (same_product pid) l (k + 1)) in *.
    replace (Z.to_nat (i - k)) with (S (Z.to_nat (i - (k + 1)))) by lia.
    simpl. now rewrite IH.
Qed.

(** The items that [addItem] hands to the save. *)
Lemma addItem_items (now : Z) (pid : string) (qty : option Q) (pr : Q) (w : World) :
  addItem now pid qty pr w
  = save now
      (mkWorld
         (set_items (this w)
            (if has_item pid (this w)
             then update_first pid
                    (fun it => mkItem (productId it)
                                      (quantity it + quantity_or_1 qty) pr
                                      (totalPrice it))
                    (items (this w))
             else items (this w)
                  ++ [mkItem pid (quantity_or_1 qty) pr (pr * quantity_or_1 qty)]))
         (stored w)).
Proof.
  unfold addItem, has_item, quantity_or_1.
  destruct (existsb (same_product pid) (items (this w))) eqn:X.
  - destruct (@findIndex_present pid 0 (items (this w)) 0%Z (Z.le_refl 0) X)
      as (H1 & _).
    apply Z.leb_le in H1. unfold findIndex. rewrite H1.
    pose proof (@findIndex_update_first pid
                  (fun it => mkItem (productId it)
                               (quantity it + match qty with Some q => q | None => 1 end)
                               pr (totalPrice it))
                  (items (this w)) 0%Z (Z.le_refl 0) X) as U.
    rewrite Z.sub_0_r in U. now rewrite U.
  - unfold findIndex. rewrite (findIndex_absent _ _ 0%Z X). reflexivity.
Qed.

Lemma sum_quantity_update_first (pid : string) (q pr : Q) (l : list CartItem) :
  existsb (same_product pid) l = true ->
  sum_over quantity
    (update_first pid (fun it => mkItem (productId it) (quantity it + q) pr
                                        (totalPrice it)) l)
  == sum_over quantity l + q.
Proof.
  induction l as [|it l IH]; simpl; intros H; [discriminate|].
  destruct (same_product pid it); simpl.
  - ring.
  - simpl in H. rewrite (IH H). ring.
Qed.

Lemma sum_quantity_app (l r : list CartItem) :
  sum_over quantity (l ++ r) == sum_over quantity l + sum_over quantity r.
Proof. induction l as [|it l IH]; simpl; [ring | rewrite IH; ring]. Qed.

Lemma find_relined (pid : string) (l : list CartItem) :
  find (same_product pid) (map relined l)
  = option_map relined (find (same_product pid) l).
Proof.
  induction l as [|it l IH]; simpl; [reflexivity|].
  change (same_product pid (relined it)) with (same_product pid it).
  destruct (same_product pid it); [reflexivity | exact IH].
Qed.

Lemma find_update_first (pid : string) (g : CartItem -> CartItem) (l : list CartItem) :
  (forall it, productId (g it) = productId it) ->
  find (same_product pid) (update_first pid g l)
  = option_map g (find (same_product pid) l).
Proof.
  intros Hg. induction l as [|it l IH]; simpl; [reflexivity|].
  destruct (same_product pid it) eqn:E; simpl.
  - unfold same_product in *. now rewrite Hg, E.
  - now rewrite E.
Qed.

Lemma find_absent_snoc (pid : string) (l : list CartItem) (x : CartItem) :
  existsb (same_product pid) l = false -> same_product pid x = true ->
  find (same_product pid) (l ++ [x]) = Some x.
Proof.
  induction l as [|it l IH]; simpl; intros H Hx.
  - now rewrite Hx.
  - apply orb_false_elim in H. destruct H as [-> H]. now apply IH.
Qed.

Lemma find_existsb (pid : string) (l : list CartItem) :
  existsb (same_product pid) l
  = match find (same_product pid) l with Some _ => true | None => false end.
Proof.
  induction l as [|it l IH]; simpl; [reflexivity|].
  destruct (same_product pid it); [reflexivity | exact IH].
Qed.

(** X5. When addItem persists, the stored count of items is the sum of the
    quantities that were in the cart plus the quantity added (1 when none
    is given), and the first item of the product carries the price
    supplied, the old quantity plus the added one (the added one for a
    product that had no item), and its line total. *)
Theorem addItem_effect (now : Z) (pid : string) (qty : option Q) (pr : Q)
        (w w' : World) :
  addItem now pid qty pr w = (inl tt, w') ->
  totalItems (this w')
  == sum_over quantity (items (this w)) + quantity_or_1 qty
  /\ exists it,
       find (same_product pid) (items (this w')) = Some it
       /\ price it = pr
       /\ quantity it
          = match find (same_product pid) (items (this w)) with
            | Some old => quantity old + quantity_or_1 qty
            | None => quantity_or_1 qty
            end
       /\ totalPrice it = price it * quantity it.
Proof.
  rewrite addItem_items. intros H.
  apply cart_save_inv in H. destruct H as [_ ->]. unfold persisted. simpl this.
  pose proof (pre_save_totals now
    (set_items (this w)
       (if has_item pid (this w)
        then update_first pid
               (fun it => mkItem (productId it) (quantity it + quantity_or_1 qty)
                                 pr (totalPrice it)) (items (this w))
        else items (this w)
             ++ [mkItem pid (quantity_or_1 qty) pr (pr * quantity_or_1 qty)])))
    as [_ H2 _ _].
  rewrite pre_save_items in *. rewrite sum_quantity_relined in H2.
  simpl items in *. unfold has_item in *.
  rewrite find_relined.
  destruct (existsb (same_product pid) (items (this w))) eqn:X.
  - split; [rewrite H2; now apply sum_quantity_update_first|].
    rewrite find_update_first by reflexivity.
    rewrite find_existsb in X.
    destruct (find (same_product pid) (items (this w))) as [old|]; [|discriminate].
    simpl. eexists. split; [reflexivity|]. simpl. auto.
  - split; [rewrite H2, sum_quantity_app; simpl; ring|].
    rewrite find_absent_snoc;
      [|assumption | unfold same_product; simpl; apply String.eqb_refl].
    rewrite find_existsb in X.
    destruct (find (same_product pid) (items (this w))); [discriminate|].
    simpl. eexists. split; [reflexivity|]. simpl. auto.
Qed.

Lemma addItem_effect_witness :
  totalItems (this (snd (addItem 7 "p1" (Some 2) 12 world0))) == 3 + 1 + 2
  /\ exists it,
       find (same_product "p1") (items (this (snd (addItem 7 "p1" (Some 2) 12 world0))))
       = Some it
       /\ price it = 12 /\ quantity it = 3 + 2
       /\ totalPrice it = price it * quantity it.
Proof.
  destruct (@addItem_effect 7 "p1" (Some 2) 12 world0
              (snd (addItem 7 "p1" (Some 2) 12 world0)) eq_refl) as [H1 H2].
  split; [rewrite H1; reflexivity | exact H2].
Defined.

(** *** removeItem *)

Lemma set_items_same (c : Cart) : set_items c (items c) = c.
Proof. now destruct c. Qed.

Lemma world_eta (w : World) : mkWorld (this w) (stored w) = w.
Proof. now destruct w. Qed.

Lemma filter_absent (pid : string) (l : list CartItem) :
  existsb (same_product pid) l = false ->
  filter (fun it => negb (same_product pid it)) l = l.
Proof.
  induction l as [|it l IH]; simpl; intros H; [reflexivity|].
  apply orb_false_elim in H. destruct H as [-> H]. simpl. now rewrite IH.
Qed.

Lemma existsb_filter_out (pid : string) (l : list CartItem) :
  existsb (same_product pid) (filter (fun it => negb (same_product pid it)) l) = false.
Proof.
  induction l as [|it l IH]; simpl; [reflexivity|].
  destruct (same_product pid it) eqn:E; simpl; [assumption|]. now rewrite E.
Qed.

Lemma existsb_relined (pid : string) (l : list CartItem) :
  existsb (same_product pid) (map relined l) = existsb (same_product pid) l.
Proof.
  induction l as [|it l IH]; simpl; [reflexivity|].
  change (same_product pid (relined it)) with (same_product pid it). now rewrite IH.
Qed.

Lemma validate_filter (f : CartItem -> bool) (l : list CartItem) :
  forallb validate_item l = true -> forallb validate_item (filter f l) = true.
Proof.
  induction l as [|it l IH]; simpl; intros H; [reflexivity|].
  apply andb_prop in H. destruct H as [H1 H2].
  destruct (f it); simpl; [now rewrite H1, IH | now apply IH].
Qed.

(** X6. removeItem never answers not-found; afterwards the document holds no
    item of the product, whether or not the save went through; for a
    product without an item it is a plain save; and on a valid cart it
    persists. *)
Theorem removeItem_total (now : Z) (pid : string) (w : World) :
  fst (removeItem now pid w) <> inr ItemNotFound
  /\ has_item pid (this (snd (removeItem now pid w))) = false
  /\ (has_item pid (this w) = false -> removeItem now pid w = save now w)
  /\ (validate (this w) = true -> fst (removeItem now pid w) = inl tt).
Proof.
  unfold removeItem, has_item. repeat split.
  - unfold save. destruct (validate _); simpl; discriminate.
  - unfold save. destruct (validate _); simpl.
    + rewrite pre_save_items, existsb_relined. simpl. apply existsb_filter_out.
    + apply existsb_filter_out.
  - intros H. now rewrite (filter_absent _ _ H), set_items_same, world_eta.
  - intros V. rewrite cart_save_valid; [reflexivity|]. simpl.
    apply validate_items; [assumption|].
    apply validate_filter, validate_forallb, V.
Qed.

Lemma removeItem_total_witness :
  removeItem 7 "p9" world0 = save 7 world0
  /\ fst (removeItem 7 "p1" world0) = inl tt.
Proof.
  destruct (removeItem_total 7 "p9" world0) as (_ & _ & H3 & _).
  destruct (removeItem_total 7 "p1" world0) as (_ & _ & _ & H4).
  split; [apply H3 | apply H4]; reflexivity.
Defined.

Lemma remove_item_filter (pid : string) (l : list CartItem) :
  NoDup (map productId l) ->
  remove_item pid l = filter (fun it => negb (same_product pid it)) l.
Proof.
  induction l as [|it l IH]; simpl; intros H; [reflexivity|].
  inversion H as [|? ? Hin Hnd]; subst.
  destruct (same_product pid it) eqn:E; simpl.
  - symmetry. apply filter_absent.
    destruct (existsb (same_product pid) l) eqn:X; [|reflexivity].
    exfalso. apply Hin. apply existsb_exists in X. destruct X as (x & Hx & Ex).
    unfold same_product in *. apply String.eqb_eq in E, Ex.
    apply in_map_iff. exists x. split; [congruence | assumption].
  - now rewrite IH.
Qed.

(** X7. In a cart with one item per product, updateItemQuantity with a
    quantity of 0 or less, for a product that has an item, does exactly
    what removeItem does. *)
Theorem updateItemQuantity_zero_is_removeItem (now : Z) (pid : string) (q : Q)
        (w : World) :
  NoDup (product_ids (this w)) -> has_item pid (this w) = true -> q <= 0 ->
  updateItemQuantity now pid q w = removeItem now pid w.
Proof.
  unfold product_ids, has_item. intros Hnd X Hq.
  unfold updateItemQuantity, removeItem, findIndex.
  destruct (@findIndex_present pid q (items (this w)) 0%Z (Z.le_refl 0) X)
    as (H1 & H2 & _).
  apply Z.leb_le in H1. rewrite H1.
  apply le_true in Hq. rewrite Hq.
  rewrite Z.sub_0_r in H2. rewrite H2.
  now rewrite remove_item_filter.
Qed.

Lemma updateItemQuantity_zero_is_removeItem_witness :
  updateItemQuantity 7 "p2" 0 world0 = removeItem 7 "p2" world0.
Proof.
  apply updateItemQuantity_zero_is_removeItem.
  - repeat constructor; simpl; intuition discriminate.
  - reflexivity.
  - discriminate.
Defined.

(** *** Coupons *)

(** X8. On a valid cart, applyCoupon with a discount of 0 or more persists the
    trimmed code and the discount, and the stored total is
    max(0, sum of the lines + tax + shipping - discount); with a negative
    discount the save is rejected by the validator of discount (min: 0)
    and the stored cart is unchanged. *)
Theorem applyCoupon_spec (now : Z) (code : string) (d : Q) (w : World) :
  validate (this w) = true ->
  (0 <= d ->
   applyCoupon now code d w
   = (inl tt, persisted now (set_coupon (this w) (Some (trim code)) d))
   /\ couponCode (this (snd (applyCoupon now code d w))) = Some (trim code)
   /\ discount (this (snd (applyCoupon now code d w))) = d
   /\ total (this (snd (applyCoupon now code d w)))
      == Qmax 0 (sum_over line (items (this w)) + tax (this w)
                 + shipping (this w) - d))
  /\ (d < 0 ->
      applyCoupon now code d w
      = (inr ValidationError,
         mkWorld (set_coupon (this w) (Some (trim code)) d) (stored w))).
Proof.
  intros V. unfold applyCoupon.
  assert (Vd : validate (set_coupon (this w) (Some (trim code)) d) = le 0 d).
  { unfold validate in *. simpl.
    repeat (apply andb_prop in V; destruct V as [V ?]).
    rewrite V.
    repeat match goal with H : le _ _ = true |- _ => rewrite H end.
    simpl. now rewrite !andb_true_r. }
  split.
  - intros Hd. apply le_true in Hd.
    rewrite cart_save_valid by (simpl; now rewrite Vd).
    split; [reflexivity|]. unfold persisted. simpl snd. simpl this.
    destruct (pre_save_frame now (set_coupon (this w) (Some (trim code)) d))
      as (_ & Ht & Hs & Hdisc & Hc & _).
    pose proof (pre_save_totals now (set_coupon (this w) (Some (trim code)) d))
      as [H1 _ _ H4].
    rewrite pre_save_items, sum_line_relined in H1. simpl items in H1.
    split; [exact Hc|]. split; [exact Hdisc|].
    rewrite H4, H1, Ht, Hs, Hdisc. reflexivity.
  - intros Hd. apply le_false in Hd.
    apply cart_save_invalid. simpl. now rewrite Vd.
Qed.

Lemma applyCoupon_spec_witness :
  applyCoupon 7 " TEN " 10 world0
  = (inl tt, persisted 7 (set_coupon cart0 (Some "TEN"%string) 10))
  /\ applyCoupon 7 "X" (-1) world0
     = (inr ValidationError, mkWorld (set_coupon cart0 (Some "X"%string) (-1)) None).
Proof.
  split.
  - apply (proj1 (@applyCoupon_spec 7 " TEN " 10 world0 eq_refl)). discriminate.
  - apply (proj2 (@applyCoupon_spec 7 "X" (-1) world0 eq_refl)). reflexivity.
Defined.

Lemma validate_without_coupon (c : Cart) (code : option string) (d : Q) :
  validate (set_coupon c code d) = true ->
  validate (set_coupon c None 0) = true.
Proof.
  unfold validate. simpl. intros V.
  repeat (apply andb_prop in V; destruct V as [V ?]).
  rewrite V.
  repeat match goal with H : le _ _ = true |- _ => rewrite H end.
  reflexivity.
Qed.

(** X9. removeCoupon after applyCoupon answers and leaves the document and the
    store exactly as removeCoupon alone does, whatever the code and the
    discount were and whether or not applyCoupon persisted. *)
Theorem removeCoupon_undoes_applyCoupon (n1 n2 : Z) (code : string) (d : Q)
        (w : World) :
  removeCoupon n2 (snd (applyCoupon n1 code d w)) = removeCoupon n2 w.
Proof.
  unfold applyCoupon, removeCoupon.
  destruct (validate (this (mkWorld (set_coupon (this w) (Some (trim code)) d)
                                    (stored w)))) eqn:V;
    [rewrite (cart_save_valid n1 _ V) | rewrite (cart_save_invalid n1 _ V)];
    simpl snd; simpl this in *; [|reflexivity].
  pose proof (validate_without_coupon _ _ _ V) as V0.
  assert (V1 : validate (set_coupon
                 (pre_save n1 (set_coupon (this w) (Some (trim code)) d)) None 0)
               = true).
  { pose proof (pre_save_valid n1 _ V) as P. revert P.
    generalize (pre_save n1 (set_coupon (this w) (Some (trim code)) d)).
    intros c P. apply validate_without_coupon with (code := couponCode c)
                                                   (d := discount c).
    now destruct c. }
  rewrite !cart_save_valid by assumption.
  unfold persisted. simpl this.
  assert (pre_save n2 (set_coupon
            (pre_save n1 (set_coupon (this w) (Some (trim code)) d)) None 0)
          = pre_save n2 (set_coupon (this w) None 0)) as ->; [|reflexivity].
  destruct (pre_save_frame n1 (set_coupon (this w) (Some (trim code)) d))
    as (Hu & Ht & Hs & _ & _ & Ha & _).
  apply pre_save_ext; simpl; auto.
  left. now rewrite pre_save_items.
Qed.

End CartExtra.

(** ** The product: further properties *)

Module ProductExtra.
Import JS Product ProductMore ProductProofs.

Lemma ple_true (a b : Q) : le a b = true <-> a <= b.
Proof. apply Qle_bool_iff. Qed.

Lemma sum_ratings_bounds (l : list Review) :
  forallb validate_review l = true ->
  length_num l <= sum_ratings l /\ sum_ratings l <= 5 * length_num l.
Proof.
  unfold length_num.
  induction l as [|r l IH]; intros H.
  - simpl. split; discriminate.
  - simpl in H. apply andb_prop in H. destruct H as [Hr Hl].
    unfold validate_review in Hr.
    apply andb_prop in Hr. destruct Hr as [Hr _].
    apply andb_prop in Hr. destruct Hr as [H1 H5].
    apply ple_true in H1, H5. destruct (IH Hl) as [A B].
    simpl List.length. rewrite Nat2Z.inj_succ. unfold Z.succ.
    rewrite inject_Z_plus. change (inject_Z 1) with 1.
    simpl sum_ratings. split; lra.
Qed.

Lemma length_num_cons_pos {A} (x : A) (l : list A) : 0 < length_num (x :: l).
Proof.
  unfold length_num. simpl List.length. rewrite Nat2Z.inj_succ. unfold Z.succ.
  rewrite inject_Z_plus. change (inject_Z 1) with 1.
  assert (0 <= inject_Z (Z.of_nat (List.length l))).
  { change 0 with (inject_Z 0). rewrite <- Zle_Qle. lia. }
  lra.
Qed.

(** The rating that the hook computes from valid reviews lies between 1
    and 5. *)
Lemma rounded_mean_in_range (l : list Review) :
  l <> [] -> forallb validate_review l = true ->
  1 <= inject_Z (Math_round (totalRating l / length_num l * 10)) / 10
  /\ inject_Z (Math_round (totalRating l / length_num l * 10)) / 10 <= 5.
Proof.
  intros Hne V. destruct l as [|r l]; [congruence|].
  pose proof (length_num_cons_pos r l) as Hn.
  destruct (sum_ratings_bounds _ V) as [A B].
  rewrite <- totalRating_sum in A, B.
  set (T := totalRating (r :: l)) in *. set (n := length_num (r :: l)) in *.
  clearbody T n.
  assert (M1 : 1 <= T / n) by (apply Qle_shift_div_l; [assumption | lra]).
  assert (M5 : T / n <= 5) by (apply Qle_shift_div_r; [assumption | lra]).
  unfold Math_round. set (m := T / n) in *. clearbody m.
  assert (K1 : (10 <= Qfloor (m * 10 + (1 # 2)))%Z).
  { assert (F : 10 + (1 # 2) <= m * 10 + (1 # 2)) by lra.
    apply Qfloor_resp_le in F. exact F. }
  assert (K5 : (Qfloor (m * 10 + (1 # 2)) <= 50)%Z).
  { assert (F : m * 10 + (1 # 2) <= 50 + (1 # 2)) by lra.
    apply Qfloor_resp_le in F. exact F. }
  set (k := Qfloor (m * 10 + (1 # 2))) in *. clearbody k.
  assert (E : inject_Z k / 10 == inject_Z k * (1 # 10)) by (now field).
  rewrite E. rewrite Zle_Qle in K1, K5.
  change (inject_Z 10) with 10 in K1. change (inject_Z 50) with 50 in K5.
  split; lra.
Qed.

Lemma validate_set_rating (p : Product) (r n : Q) :
  validate p = true -> 0 <= r -> r <= 5 -> validate (set_rating p r n) = true.
Proof.
  unfold validate. simpl. intros V H0 H5.
  apply ple_true in H0, H5.
  repeat (apply andb_prop in V; destruct V as [V ?]).
  repeat (apply andb_true_intro; split); auto.
Qed.

Lemma validate_reviews (p : Product) :
  validate p = true -> forallb validate_review (reviews p) = true.
Proof.
  unfold validate. intros V.
  repeat (apply andb_prop in V; destruct V as [V ?]). assumption.
Qed.

Lemma product_pre_save_valid (p : Product) :
  validate p = true -> validate (pre_save p) = true.
Proof.
  intros V. unfold pre_save. rewrite length_num_pos.
  destruct (reviews p) as [|r l] eqn:E.
  - apply validate_set_rating; [assumption | |]; discriminate.
  - pose proof (validate_reviews _ V) as Vr. rewrite E in Vr.
    destruct (@rounded_mean_in_range (r :: l) ltac:(discriminate) Vr) as [A B].
    apply validate_set_rating; [assumption | lra | assumption].
Qed.

(** X10. Every product that a save or addReview persists passes the validators
    of the schema again: its recomputed rating is 0 without reviews and
    between 1 and 5 with reviews, so that a plain save of it succeeds. *)
Theorem persisted_product_valid (op : Op) (w w' : World) :
  run op w = (inl tt, w') ->
  validate (this w') = true
  /\ (reviews (this w') = [] \/ (1 <= rating_ (this w') /\ rating_ (this w') <= 5))
  /\ fst (save w') = inl tt.
Proof.
  intros H.
  assert (exists p, validate p = true
                    /\ w' = mkWorld (pre_save p) (Some (pre_save p)))
    as (p & V & ->).
  { destruct op; simpl in H; unfold addReview in H;
      apply product_save_inv in H; destruct H as [V H]; eauto. }
  pose proof (product_pre_save_valid _ V) as V'.
  simpl this. split; [exact V'|]. split.
  - destruct (pre_save_rating p) as (R & _).
    rewrite R. unfold pre_save. rewrite length_num_pos.
    destruct (reviews p) as [|r l] eqn:E; [now left | right].
    simpl. pose proof (validate_reviews _ V) as Vr. rewrite E in Vr.
    apply (@rounded_mean_in_range (r :: l)); [discriminate | exact Vr].
  - unfold save. simpl this. now rewrite V'.
Qed.

Lemma persisted_product_valid_witness :
  validate (this (snd (run (OpAddReview "u3" 4 None) world0))) = true
  /\ (reviews (this (snd (run (OpAddReview "u3" 4 None) world0))) = []
      \/ (1 <= rating_ (this (snd (run (OpAddReview "u3" 4 None) world0)))
          /\ rating_ (this (snd (run (OpAddReview "u3" 4 None) world0))) <= 5))
  /\ fst (save (snd (run (OpAddReview "u3" 4 None) world0))) = inl tt.
Proof.
  apply (@persisted_product_valid (OpAddReview "u3" 4 None) world0). reflexivity.
Defined.

(** *** addReview and the validators *)

Lemma trimStart_length (s : string) : (String.length (trimStart s) <= String.length s)%nat.
Proof.
  induction s as [|c s IH]; simpl; [lia|].
  destruct (is_space c); simpl; lia.
Qed.

Lemma trimEnd_length (s : string) : (String.length (trimEnd s) <= String.length s)%nat.
Proof.
  induction s as [|c s IH]; simpl; [lia|].
  destruct (trimEnd s); simpl in *; [destruct (is_space c); simpl; lia | lia].
Qed.

Lemma trim_length (s : string) : (String.length (trim s) <= String.length s)%nat.
Proof.
  unfold trim. pose proof (trimEnd_length (trimStart s)).
  pose proof (trimStart_length s). lia.
Qed.

Lemma validate_set_reviews (p : Product) (l : list Review) :
  validate p = true -> validate (set_reviews p l) = forallb validate_review l.
Proof.
  destruct p. unfold validate, set_reviews. cbn -[required_str max_length le].
  intros V.
  repeat (apply andb_prop in V; destruct V as [V ?]).
  repeat match goal with H : _ = true |- _ => rewrite H end.
  reflexivity.
Qed.

Lemma validate_review_filter (f : Review -> bool) (l : list Review) :
  forallb validate_review l = true -> forallb validate_review (filter f l) = true.
Proof.
  induction l as [|r l IH]; simpl; intros H; [reflexivity|].
  apply andb_prop in H. destruct H as [H1 H2].
  destruct (f r); simpl; [now rewrite H1, IH | now apply IH].
Qed.

Lemma length_num_snoc {A} (l : list A) (x : A) :
  length_num (l ++ [x]) == length_num l + 1.
Proof.
  unfold length_num. rewrite length_app. simpl List.length.
  rewrite Nat2Z.inj_add, inject_Z_plus. reflexivity.
Qed.

(** X11. On a valid product, addReview with a rating between 1 and 5 and a
    comment of at most 500 characters persists, and the stored reviewCount
    is the number of reviews of the other users plus one; with a rating
    below 1 or above 5 the save is rejected, the stored product is
    unchanged and the document in memory holds the new review. *)
Theorem addReview_validated (u : string) (r : Q) (c : option string) (w : World) :
  validate (this w) = true ->
  (1 <= r -> r <= 5 -> (String.length (or_str c EmptyString) <= 500)%nat ->
   fst (addReview u r c w) = inl tt
   /\ stored (snd (addReview u r c w)) = Some (this (snd (addReview u r c w)))
   /\ reviewCount (this (snd (addReview u r c w)))
      == length_num (filter (fun x => negb (by_user u x)) (reviews (this w))) + 1)
  /\ (r < 1 \/ 5 < r ->
      addReview u r c w
      = (inr ValidationError,
         mkWorld (set_reviews (this w) (addReview_reviews (reviews (this w)) u r c))
                 (stored w))).
Proof.
  intros V.
  assert (Vn : validate (set_reviews (this w)
                           (addReview_reviews (reviews (this w)) u r c))
               = le 1 r && le r 5
                 && max_length 500 (trim (or_str c EmptyString))).
  { rewrite (validate_set_reviews _ _ V).
    unfold addReview_reviews. rewrite forallb_app.
    rewrite (validate_review_filter _ _ (validate_reviews _ V)).
    simpl. now rewrite andb_true_r. }
  unfold addReview, save. simpl this. rewrite Vn.
  split.
  - intros H1 H5 Hc.
    apply ple_true in H1, H5. rewrite H1, H5.
    assert (max_length 500 (trim (or_str c EmptyString)) = true) as ->.
    { unfold max_length. apply Nat.leb_le.
      pose proof (trim_length (or_str c EmptyString)). lia. }
    simpl. split; [reflexivity|]. split; [reflexivity|].
    destruct (pre_save_rating
                (set_reviews (this w) (addReview_reviews (reviews (this w)) u r c)))
      as (_ & Hn & _).
    rewrite Hn. simpl reviews. apply length_num_snoc.
  - intros Hr.
    assert (le 1 r && le r 5 = false) as ->; [|reflexivity].
    destruct Hr as [Hr | Hr].
    + assert (le 1 r = false) as -> by (apply CartExtra.le_false, Hr). reflexivity.
    + assert (le r 5 = false) as -> by (apply CartExtra.le_false, Hr).
      apply andb_false_r.
Qed.

Lemma addReview_validated_witness :
  (fst (addReview "u1" 3 (Some "ok"%string) world0) = inl tt
   /\ stored (snd (addReview "u1" 3 (Some "ok"%string) world0))
      = Some (this (snd (addReview "u1" 3 (Some "ok"%string) world0)))
   /\ reviewCount (this (snd (addReview "u1" 3 (Some "ok"%string) world0))) == 1 + 1)
  /\ fst (addReview "u1" 6 None world0) = inr ValidationError.
Proof.
  split.
  - destruct (@addReview_validated "u1" 3 (Some "ok"%string) world0 eq_refl)
      as [H _].
    destruct H as (H1 & H2 & H3);
      [discriminate | discriminate | simpl; lia |].
    split; [exact H1|]. split; [exact H2|]. rewrite H3. reflexivity.
  - rewrite (proj2 (@addReview_validated "u1" 6 None world0 eq_refl));
      [reflexivity | right; reflexivity].
Defined.

(** *** discountPercentage *)



Example discount_of_a_quarter :
  discountPercentage
    (mkProduct "a2" "Cup" "A cup" 30 (Some 40) "kitchen" None None [] None
               0 10 0 0 [] [] true false 0) == 25.
Proof. reflexivity. Qed.

(** *** searchProducts: the filters and the order *)




(** X14. The order of the results: the four known values of sortBy decide it
    whatever the query is; for any other value, or none, the order is by
    text score exactly when a non-empty query is given, and newest first
    otherwise. *)
Theorem searchProducts_order (query : option string) (filters : Filters) :
  (forall s, f_sortBy filters = Some s -> known_sort_key s = true ->
     snd (searchProducts query filters) = snd (searchProducts None filters)
     /\ snd (searchProducts query filters) <> SortTextScore)
  /\ ((forall s, f_sortBy filters = Some s -> known_sort_key s = false) ->
      snd (searchProducts query filters)
      = if truthy_str query then SortTextScore else SortCreatedAt (-1)).
Proof.
  unfold searchProducts, sort_of, known_sort_key. simpl. split.
  - intros s Hs K. rewrite Hs.
    destruct (String.eqb s "price-low"); [split; [reflexivity | discriminate]|].
    destruct (String.eqb s "price-high"); [split; [reflexivity | discriminate]|].
    destruct (String.eqb s "rating"); [split; [reflexivity | discriminate]|].
    destruct (String.eqb s "newest"); [split; [reflexivity | discriminate]|].
    discriminate.
  - intros K. destruct (f_sortBy filters) as [s|]; [|reflexivity].
    specialize (K s eq_refl).
    apply orb_false_elim in K. destruct K as [K ->].
    apply orb_false_elim in K. destruct K as [K ->].
    apply orb_false_elim in K. destruct K as [-> ->]. reflexivity.
Qed.

Lemma searchProducts_order_witness :
  snd (searchProducts (Some "mug"%string)
         (mkFilters None None None None false (Some "price-low"%string)))
  = SortPrice 1
  /\ snd (searchProducts (Some "mug"%string)
            (mkFilters None None None None false (Some "cheapest"%string)))
     = SortTextScore.
Proof.
  split.
  - destruct (proj1 (searchProducts_order (Some "mug"%string)
                       (mkFilters None None None None false (Some "price-low"%string)))
                    "price-low"%string eq_refl eq_refl) as [H _].
    rewrite H. reflexivity.
  - apply (proj2 (searchProducts_order (Some "mug"%string)
                    (mkFilters None None None None false (Some "cheapest"%string)))).
    intros s Hs. injection Hs as <-. reflexivity.
Defined.

End ProductExtra.

(** ** Registration, login and the other routes: further properties *)

Module AuthExtra.
Import JS User Auth AuthMore AuthProofs.
Local Open Scope string_scope.

(** X15. Login reads the email through [toLowerCase] only: two bodies whose
    emails differ in the case of their letters, with the same password,
    are answered alike and leave the same collection. *)
Theorem login_email_case (lib : Lib) (env : Env) (now : Z) (db : Collection)
        (b1 b2 : Body) (e1 e2 : string) :
  b_email b1 = Some e1 -> b_email b2 = Some e2 ->
  e1 <> EmptyString -> e2 <> EmptyString ->
  toLowerCase e1 = toLowerCase e2 ->
  b_password b1 = b_password b2 ->
  login lib env now db b1 = login lib env now db b2.
Proof.
  intros H1 H2 N1 N2 L P. unfold login.
  rewrite H1, H2, P, (truthy_some N1), (truthy_some N2), !or_str_some, L.
  reflexivity.
Qed.

Lemma login_email_case_witness :
  login lib0 env0 9 db0 (mkBody None (Some "ANN@X.com") (Some "secret1") None)
  = login lib0 env0 9 db0 (mkBody None (Some "ann@x.com") (Some "secret1") None).
Proof.
  apply (@login_email_case lib0 env0 9%Z db0 _ _ "ANN@X.com" "ann@x.com");
    try reflexivity; discriminate.
Defined.

Lemma find_app_last {A} (f : A -> bool) (l : list A) (x : A) :
  find f l = None -> f x = true -> find f (l ++ [x])%list = Some x.
Proof.
  induction l as [|y l IH]; simpl; intros H Hx.
  - now rewrite Hx.
  - destruct (f y); [discriminate | now apply IH].
Qed.

Lemma created_email (lib : Lib) (now : Z) (db : Collection) (body : Body) :
  email (created lib now db body)
  = trim (toLowerCase (toLowerCase (or_str (b_email body) EmptyString))).
Proof. reflexivity. Qed.

Lemma findOne_created (lib : Lib) (now : Z) (db : Collection) (body : Body)
      (e e2 : string) :
  b_email body = Some e ->
  findOne_email db (toLowerCase e) = None ->
  toLowerCase e2 = toLowerCase e ->
  findOne_email (db ++ [created lib now db body])%list (toLowerCase e2)
  = Some (created lib now db body).
Proof.
  intros He Hfree L. unfold findOne_email in *. rewrite L.
  apply find_app_last; [exact Hfree|].
  rewrite created_email, He, or_str_some. apply String.eqb_refl.
Qed.

Lemma validate_created (lib : Lib) (now : Z) (db : Collection) (body : Body)
      (d : option Z) :
  validate (candidate lib db body) = true ->
  validate (set_lastLogin (created lib now db body) d) = true.
Proof. intros V. exact V. Qed.

(** X16. A user who has just registered can log in: after a registration that
    stores the user, a login with the same password and the same email in
    any letter case is answered with status 200, the role and the profile
    of that user and a token for its id and email, provided bcrypt accepts
    the password against its own hash and the token secret is
    configured. *)
Theorem register_then_login (lib : Lib) (env : Env) (n1 n2 : Z) (db : Collection)
        (body body2 : Body) (e e2 pw secret : string) :
  b_email body = Some e -> e <> EmptyString ->
  b_password body = Some pw -> (6 <= String.length pw)%nat ->
  findOne_email db (toLowerCase e) = None ->
  validate (candidate lib db body) = true ->
  JWT_SECRET env = Some secret -> secret <> EmptyString ->
  bcrypt_compare lib pw (bcrypt_hash lib pw 12) = true ->
  b_email body2 = Some e2 -> e2 <> EmptyString ->
  toLowerCase e2 = toLowerCase e ->
  b_password body2 = Some pw ->
  let u := created lib n1 db body in
  fst (login lib env n2 (snd (register lib env n1 db body)) body2)
  = mkResponse 200 (Some true) "Login successful" None (Some (role u))
      (Some (jwt_sign lib (mkPayload (_id u) (email u)) secret "7d"))
      (Some (getPublicProfile u)) None.
Proof.
  intros He Hne Hp Hlen Hfree Hval Hs Hsne Hcmp He2 Hne2 L Hp2 u. subst u.
  assert (Hdb : snd (register lib env n1 db body)
                = (db ++ [created lib n1 db body])%list).
  { rewrite (register_stores lib env n1 db body He Hne Hp Hlen Hfree Hval).
    destruct (generateToken _ _ _ _); reflexivity. }
  rewrite Hdb. unfold login.
  rewrite He2, Hp2, (truthy_some Hne2), (truthy_some (long_nonempty Hlen)).
  rewrite !or_str_some. simpl negb. simpl orb. cbv iota.
  rewrite (findOne_created lib n1 db body e2 He Hfree L).
  assert (isActive (created lib n1 db body) = true) as -> by reflexivity.
  assert (password (created lib n1 db body) = bcrypt_hash lib pw 12) as ->.
  { unfold created, candidate. simpl. now rewrite Hp, or_str_some. }
  rewrite Hcmp. simpl negb. cbv iota.
  unfold save_existing.
  rewrite (validate_created lib n1 db body (Some n2) Hval).
  unfold generateToken, generateToken_secret. rewrite Hs.
  destruct (String.eqb secret "") eqn:E;
    [apply String.eqb_eq in E; contradiction|].
  reflexivity.
Qed.

Lemma register_then_login_witness :
  status (fst (login lib0 env0 11
                 (snd (register lib0 env0 9 db0
                         (mkBody None (Some "Cy@x.com") (Some "123456") None)))
                 (mkBody None (Some "CY@X.COM") (Some "123456") None)))
  = 200%nat.
Proof.
  rewrite (@register_then_login lib0 env0 9%Z 11%Z db0
             (mkBody None (Some "Cy@x.com") (Some "123456") None)
             (mkBody None (Some "CY@X.COM") (Some "123456") None)
             "Cy@x.com" "CY@X.COM" "123456" "s3cret");
    try reflexivity; try discriminate.
Defined.

(** X17. Once an email is registered, a second registration with that email in
    any letter case (and a password of six characters or more) is answered
    with status 400 and the field 'email', and stores nothing. *)
Theorem register_twice (lib : Lib) (env : Env) (n1 n2 : Z) (db : Collection)
        (body body2 : Body) (e e2 pw pw2 : string) :
  b_email body = Some e -> e <> EmptyString ->
  b_password body = Some pw -> (6 <= String.length pw)%nat ->
  findOne_email db (toLowerCase e) = None ->
  validate (candidate lib db body) = true ->
  b_email body2 = Some e2 -> e2 <> EmptyString ->
  toLowerCase e2 = toLowerCase e ->
  b_password body2 = Some pw2 -> (6 <= String.length pw2)%nat ->
  register lib env n2 (snd (register lib env n1 db body)) body2
  = (failure 400 "User already exists with this email" "email",
     snd (register lib env n1 db body)).
Proof.
  intros He Hne Hp Hlen Hfree Hval He2 Hne2 L Hp2 Hlen2.
  assert (Hdb : snd (register lib env n1 db body)
                = (db ++ [created lib n1 db body])%list).
  { rewrite (register_stores lib env n1 db body He Hne Hp Hlen Hfree Hval).
    destruct (generateToken _ _ _ _); reflexivity. }
  rewrite Hdb. unfold register at 1.
  rewrite He2, Hp2, (truthy_some Hne2), (truthy_some (long_nonempty Hlen2)).
  rewrite !or_str_some. simpl negb. simpl orb. cbv iota.
  assert ((String.length pw2 <? 6)%nat = false) as -> by (apply Nat.ltb_ge; lia).
  now rewrite (findOne_created lib n1 db body e2 He Hfree L).
Qed.

Lemma register_twice_witness :
  fst (register lib0 env0 11
         (snd (register lib0 env0 9 db0
                 (mkBody None (Some "Cy@x.com") (Some "123456") None)))
         (mkBody None (Some "cY@X.com") (Some "abcdefg") None))
  = failure 400 "User already exists with this email" "email".
Proof.
  rewrite (@register_twice lib0 env0 9%Z 11%Z db0
             (mkBody None (Some "Cy@x.com") (Some "123456") None)
             (mkBody None (Some "cY@X.com") (Some "abcdefg") None)
             "Cy@x.com" "cY@X.com" "123456" "abcdefg");
    try reflexivity; try discriminate.
  simpl. lia.
Defined.

(** *** The collection stays well formed *)

Lemma existsb_email_absent (x : string) (db : Collection) :
  existsb (fun v => String.eqb (email v) x) db = false -> ~ In x (map email db).
Proof.
  induction db as [|v db IH]; simpl; intros H; [tauto|].
  apply orb_false_elim in H. destruct H as [H1 H2].
  intros [E | Hin]; [|now apply IH].
  rewrite E, String.eqb_refl in H1. discriminate.
Qed.

Lemma NoDup_app_one {A} (l : list A) (x : A) :
  NoDup l -> ~ In x l -> NoDup (l ++ [x])%list.
Proof.
  induction l as [|y l IH]; simpl; intros H Hx.
  - constructor; [tauto | constructor].
  - inversion H; subst. constructor.
    + rewrite in_app_iff. simpl. intuition congruence.
    + apply IH; tauto.
Qed.

Lemma save_new_well_formed (now : Z) (u u' : User) (db db' : Collection) :
  well_formed db -> ~ In (_id u) (map _id db) ->
  save_new now u db = inl (u', db') -> well_formed db'.
Proof.
  intros (He & Hi & Hv) Hfresh. unfold save_new.
  destruct (validate u) eqn:V; [|discriminate].
  destruct (existsb _ db) eqn:X; [discriminate|].
  intros H. injection H as <- <-.
  apply existsb_email_absent in X.
  split; [|split].
  - rewrite map_app. simpl map. now apply NoDup_app_one.
  - rewrite map_app. simpl map. now apply NoDup_app_one.
  - apply Forall_app. split; [assumption|]. constructor; [exact V | constructor].
Qed.

Lemma same_id_same_user (db : Collection) (a b : User) :
  NoDup (map _id db) -> In a db -> In b db -> _id a = _id b -> a = b.
Proof.
  induction db as [|v db IH]; simpl; intros H Ha Hb E; [tauto|].
  inversion H as [|? ? Hin Hnd]; subst.
  destruct Ha as [-> | Ha], Hb as [-> | Hb]; auto.
  - exfalso. apply Hin. rewrite E. now apply in_map.
  - exfalso. apply Hin. rewrite <- E. now apply in_map.
Qed.

Lemma save_existing_well_formed (now : Z) (m : bool) (u0 u u' : User)
      (db db' : Collection) :
  well_formed db -> In u0 db -> _id u = _id u0 -> email u = email u0 ->
  save_existing now m u db = inl (u', db') -> well_formed db'.
Proof.
  intros (He & Hi & Hv) Hin Eid Eem. unfold save_existing.
  destruct (validate u) eqn:V; [|discriminate].
  intros H. injection H as <- <-.
  set (u' := pre_save now false m u).
  assert (Iu : _id u' = _id u0) by (unfold u', pre_save; destruct (false || m); exact Eid).
  assert (Eu : email u' = email u0)
    by (unfold u', pre_save; destruct (false || m); exact Eem).
  assert (Vu : validate u' = true)
    by (unfold u', pre_save; destruct (false || m); exact V).
  assert (Hid : map _id (map (fun v => if String.eqb (_id v) (_id u') then u' else v) db)
                = map _id db).
  { rewrite map_map. apply map_ext. intros v.
    destruct (String.eqb (_id v) (_id u')) eqn:E; [|reflexivity].
    apply String.eqb_eq in E. now rewrite E. }
  assert (Hem : map email (map (fun v => if String.eqb (_id v) (_id u') then u' else v) db)
                = map email db).
  { rewrite map_map. apply map_ext_in. intros v Hv'.
    destruct (String.eqb (_id v) (_id u')) eqn:E; [|reflexivity].
    apply String.eqb_eq in E. rewrite Iu in E.
    rewrite (same_id_same_user db v u0 Hi Hv' Hin E). exact Eu. }
  split; [now rewrite Hem | split; [now rewrite Hid|]].
  apply Forall_forall. intros x Hx. apply in_map_iff in Hx.
  destruct Hx as (v & <- & Hv').
  destruct (String.eqb (_id v) (_id u')); [exact Vu|].
  rewrite Forall_forall in Hv. now apply Hv.
Qed.

Lemma findOne_email_in (db : Collection) (e : string) (u : User) :
  findOne_email db e = Some u -> In u db.
Proof. unfold findOne_email. intros H. now apply find_some in H. Qed.

(** X18. Registration, login and the two Google routes keep the collection
    well formed (one user per email, one per id, every user valid),
    whatever the request and whatever they answer, as long as the id
    generator returns an id that the collection does not hold. *)
Theorem requests_keep_well_formed (lib : Lib) (env : Env) (now : Z)
        (db : Collection) (req : Request) :
  well_formed db -> ~ In (new_ObjectId lib db) (map _id db) ->
  well_formed (after lib env now db req).
Proof.
  intros W Hfresh. destruct req as [body | body | gb | gb]; simpl.
  - (* register *)
    unfold register.
    destruct (negb _ || negb _); [exact W|].
    destruct (_ <? 6)%nat; [exact W|].
    destruct (findOne_email db _); [exact W|].
    destruct (save_new _ _ _) as [[u' db'] | e] eqn:S; [|exact W].
    apply save_new_well_formed in S; [|exact W | exact Hfresh].
    destruct (generateToken _ _ _ _); exact S.
  - (* login *)
    unfold login.
    destruct (negb _ || negb _); [exact W|].
    destruct (findOne_email db _) as [user|] eqn:F; [|exact W].
    destruct (negb (isActive user)); [exact W|].
    destruct (negb (bcrypt_compare _ _ _)); [exact W|].
    destruct (save_existing _ _ _ _) as [[u' db'] | e] eqn:S; [|exact W].
    apply save_existing_well_formed with (u0 := user) in S;
      [| exact W | now apply findOne_email_in in F | reflexivity | reflexivity].
    destruct (generateToken _ _ _ _); exact S.
  - (* google-register *)
    unfold googleRegister.
    destruct (negb _ || negb _); [exact W|].
    destruct (findOne_email db _) as [user|] eqn:F.
    + destruct (negb (truthy_str (googleId user))).
      * destruct (save_existing _ _ _ _) as [[u' db'] | e] eqn:S; [|exact W].
        apply save_existing_well_formed with (u0 := user) in S;
          [| exact W | now apply findOne_email_in in F | reflexivity | reflexivity].
        destruct (generateToken _ _ _ _); exact S.
      * destruct (generateToken _ _ _ _); exact W.
    + destruct (save_new _ _ _) as [[u' db'] | e] eqn:S; [|exact W].
      apply save_new_well_formed in S; [|exact W | exact Hfresh].
      destruct (generateToken _ _ _ _); exact S.
  - (* google-login *)
    unfold googleLogin.
    destruct (negb _ || negb _); [exact W|].
    destruct (findOne_email db _) as [user|] eqn:F.
    + destruct (save_existing _ _ _ _) as [[u' db'] | e] eqn:S; [|exact W].
      apply save_existing_well_formed with (u0 := user) in S;
        [| exact W | now apply findOne_email_in in F
         | destruct (negb (truthy_str (googleId user))); reflexivity
         | destruct (negb (truthy_str (googleId user))); reflexivity].
      destruct (negb (isActive u')); [exact S|].
      destruct (generateToken _ _ _ _); exact S.
    + destruct (save_new _ _ _) as [[u' db'] | e] eqn:S; [|exact W].
      apply save_new_well_formed in S; [|exact W | exact Hfresh].
      destruct (negb (isActive u')); [exact S|].
      destruct (generateToken _ _ _ _); exact S.
Qed.

Lemma db0_well_formed : well_formed db0.
Proof.
  repeat split.
  - repeat constructor; simpl; intuition discriminate.
  - repeat constructor; simpl; intuition discriminate.
  - repeat constructor.
Qed.

Lemma requests_keep_well_formed_witness :
  well_formed (after lib0 env0 9 db0
                 (ReqGoogleLogin (mkGoogleBody (Some "Zed@x.com") None
                                               (Some "g-77") None))).
Proof.
  apply requests_keep_well_formed.
  - exact db0_well_formed.
  - simpl. intuition discriminate.
Defined.

(** *** A deactivated account *)

Lemma token_with_secret (lib : Lib) (env : Env) (uid em secret : string) :
  JWT_SECRET env = Some secret -> secret <> EmptyString ->
  generateToken lib env uid em = inl (jwt_sign lib (mkPayload uid em) secret "7d").
Proof.
  intros Hs Hne. unfold generateToken, generateToken_secret. rewrite Hs.
  destruct (String.eqb secret "") eqn:E; [|reflexivity].
  apply String.eqb_eq in E. contradiction.
Qed.

(** X19. The three ways in treat a deactivated account differently: the
    password login answers 403 before it looks at the password, the Google
    login answers 400 and issues no token, and the Google registration,
    which does not look at the flag, answers 200 with a token for the
    account (the token secret being configured). *)
Theorem deactivated_account (lib : Lib) (env : Env) (now : Z) (db : Collection)
        (e pw gid secret : string) (pic : option string) (u : User) :
  e <> EmptyString -> pw <> EmptyString -> gid <> EmptyString ->
  findOne_email db (toLowerCase e) = Some u ->
  isActive u = false -> validate u = true ->
  JWT_SECRET env = Some secret -> secret <> EmptyString ->
  fst (login lib env now db (mkBody None (Some e) (Some pw) None))
  = failure 403 "Account is deactivated. Please contact support." "account"
  /\ fst (googleLogin lib env now db (mkGoogleBody (Some e) None (Some gid) pic))
     = say 400 "Account is deactivated"
  /\ fst (googleRegister lib env now db (mkGoogleBody (Some e) None (Some gid) pic))
     = mkReply 200 None (Some "Login successful")
         (Some (jwt_sign lib (mkPayload (_id u) (email u)) secret "7d"))
         (Some (mkProfile (_id u) (name u) (email u) (role u)
                  (if truthy_str (googleId u) then picture u else pic)
                  (createdAt u)))
         None None.
Proof.
  intros He Hpw Hg F A V Hs Hsne. split; [|split].
  - unfold login. simpl b_email. simpl b_password.
    rewrite (truthy_some He), (truthy_some Hpw), !or_str_some.
    simpl negb. simpl orb. cbv iota. now rewrite F, A.
  - unfold googleLogin. simpl g_email. simpl g_googleId. simpl g_picture.
    rewrite (truthy_some He), (truthy_some Hg), !or_str_some.
    simpl negb at 1 2. simpl orb. cbv iota. rewrite F.
    unfold save_existing.
    assert (validate (set_lastLogin
                        (if negb (truthy_str (googleId u)) then set_google u gid pic
                         else u) (Some now)) = true) as ->.
    { destruct (negb (truthy_str (googleId u))); exact V. }
    assert (isActive (pre_save now false true
                        (set_lastLogin
                           (if negb (truthy_str (googleId u))
                            then set_google u gid pic else u) (Some now))) = false)
      as ->; [|reflexivity].
    destruct (negb (truthy_str (googleId u))); exact A.
  - unfold googleRegister. simpl g_email. simpl g_googleId. simpl g_picture.
    rewrite (truthy_some He), (truthy_some Hg), !or_str_some.
    simpl negb at 1 2. simpl orb. cbv iota. rewrite F.
    destruct (truthy_str (googleId u)); simpl negb; cbv iota.
    + now rewrite (token_with_secret lib env _ _ Hs Hsne).
    + unfold save_existing.
      assert (validate (set_google u gid pic) = true) as -> by exact V.
      simpl. now rewrite (token_with_secret lib env _ _ Hs Hsne).
Qed.

Lemma deactivated_account_witness :
  status (fst (login lib0 env0 9 db0
                 (mkBody None (Some "bob@x.com") (Some "hunter22") None))) = 403%nat
  /\ fst (googleLogin lib0 env0 9 db0
            (mkGoogleBody (Some "bob@x.com") None (Some "g-1") None))
     = say 400 "Account is deactivated"
  /\ rp_status (fst (googleRegister lib0 env0 9 db0
                       (mkGoogleBody (Some "bob@x.com") None (Some "g-1") None)))
     = 200%nat.
Proof.
  destruct (@deactivated_account lib0 env0 9%Z db0 "bob@x.com" "hunter22" "g-1"
              "s3cret" None
              (mkUser "id2" "Bob" "bob@x.com" "$2a$12$hunter22" "user" None None
                      false None (Some 0%Z)))
    as (H1 & H2 & H3); try reflexivity; try discriminate.
  rewrite H1, H3. split; [reflexivity | split; [exact H2 | reflexivity]].
Defined.

(** *** The chain of the dashboard and the token routes *)

(** X20. The chain [auth, admin] lets a request through exactly when its
    Authorization header is not empty and the token in it verifies, under
    the secret of the middleware, for a stored user whose role is 'admin';
    whether the account is active is not looked at. Every refusal is a 401
    (from auth) or a 403 (from admin), and the 403 comes exactly for a
    verified, stored user who is not an admin. *)
Theorem protected_access (lib : Lib) (env : Env) (db : Collection)
        (authHeader : option string) :
  let verified u :=
    truthy_str authHeader = true
    /\ exists decoded,
         jwt_verify lib (remove_first "Bearer " (or_str authHeader EmptyString))
                    (auth_secret env) = Some decoded
         /\ findById db (Auth.userId decoded) = Some u in
  (protected lib env db authHeader = Next tt
   <-> exists u, verified u /\ role u = "admin")
  /\ (forall st msg, protected lib env db authHeader = Respond st msg ->
        (st = 401%nat \/ st = 403%nat)
        /\ (st = 403%nat <-> exists u, verified u /\ role u <> "admin")).
Proof.
  intros verified. unfold verified, protected, auth.
  destruct (truthy_str authHeader); simpl negb; cbv iota.
  2:{ split.
      - split; [discriminate | intros (u & (H & _) & _); discriminate].
      - intros st msg H. injection H as <- <-. split; [now left|].
        split; [discriminate | intros (u & (H & _) & _); discriminate]. }
  destruct (jwt_verify lib _ (auth_secret env)) as [decoded|].
  2:{ split.
      - split; [discriminate | intros (u & (_ & d & H & _) & _); discriminate].
      - intros st msg H. injection H as <- <-. split; [now left|].
        split; [discriminate | intros (u & (_ & d & H & _) & _); discriminate]. }
  destruct (findById db (Auth.userId decoded)) as [user|] eqn:F.
  2:{ split.
      - split; [discriminate|].
        intros (u & (_ & d & H & H') & _). congruence.
      - intros st msg H. injection H as <- <-. split; [now left|].
        split; [discriminate|].
        intros (u & (_ & d & H & H') & _). congruence. }
  unfold admin, without_password. simpl role.
  destruct (String.eqb (role user) "admin") eqn:R.
  - apply String.eqb_eq in R. split.
    + split; [|reflexivity]. intros _. exists user. split; [|exact R].
      split; [reflexivity|]. exists decoded. auto.
    + intros st msg H. discriminate.
  - apply String.eqb_neq in R. split.
    + split; [discriminate|].
      intros (u & (_ & d & H & H') & Hr). congruence.
    + intros st msg H. injection H as <- <-. split; [now right|].
      split; [|reflexivity]. intros _. exists user. split; [|exact R].
      split; [reflexivity|]. exists decoded. auto.
Qed.

Lemma protected_access_witness :
  protected lib1 env0 [root0] (Some "Bearer id7|root@x.com|s3cret") = Next tt.
Proof.
  apply (proj1 (@protected_access lib1 env0 [root0]
                  (Some "Bearer id7|root@x.com|s3cret"))).
  exists root0. split; [|reflexivity]. split; [reflexivity|].
  exists (mkPayload "id7" "root@x.com"). split; reflexivity.
Defined.

Lemma auth_secret_configured (env : Env) (secret : string) :
  JWT_SECRET env = Some secret -> secret <> EmptyString -> auth_secret env = secret.
Proof.
  unfold auth_secret. intros -> H. simpl.
  destruct (String.eqb secret "") eqn:E; [|reflexivity].
  apply String.eqb_eq in E. contradiction.
Qed.

(** X21. With a configured secret, a bearer token that verifies for a stored
    user is read alike by the auth middleware, /me, /refresh and
    /verify-admin: all four find that user. /me answers its profile,
    /refresh a new token for the stored id and email of the user, and
    /verify-admin reports isAdmin exactly when the chain of the dashboard
    would let the request through. *)
Theorem token_routes_agree (lib : Lib) (nokey : string -> option Payload)
        (env : Env) (db : Collection) (h secret : string) (decoded : Payload)
        (u : User) :
  JWT_SECRET env = Some secret -> secret <> EmptyString ->
  remove_first "Bearer " h <> EmptyString ->
  jwt_verify lib (remove_first "Bearer " h) secret = Some decoded ->
  findById db (Auth.userId decoded) = Some u ->
  auth lib env db (Some h) = Next (Auth.userId decoded, without_password u)
  /\ me lib nokey env db (Some h)
     = mkReply 200 None None None (Some (getPublicProfile u)) None None
  /\ refresh lib nokey env db (Some h)
     = mkReply 200 None (Some "Token refreshed successfully")
         (Some (jwt_sign lib (mkPayload (_id u) (email u)) secret "7d"))
         (Some (getPublicProfile u)) None None
  /\ verifyAdmin lib nokey env db (Some h)
     = mkReply 200 (Some true) (Some "User verified") None None
         (Some (mkUserData (_id u) (email u) (role u)
                           (String.eqb (role u) "admin") (isActive u)))
         None
  /\ (String.eqb (role u) "admin" = true
      <-> protected lib env db (Some h) = Next tt).
Proof.
  intros Hs Hne Ht Hv Hf.
  assert (Hh : h <> EmptyString) by (intros ->; now apply Ht).
  assert (A : auth lib env db (Some h)
              = Next (Auth.userId decoded, without_password u)).
  { unfold auth. rewrite (truthy_some Hh), or_str_some,
      (auth_secret_configured env Hs Hne), Hv, Hf. reflexivity. }
  split; [exact A|]. split; [|split; [|split]].
  - unfold me, verify_env. simpl option_map.
    rewrite (truthy_some Ht), or_str_some, Hs, Hv, Hf. reflexivity.
  - unfold refresh, verify_env. simpl option_map.
    rewrite (truthy_some Ht), or_str_some, Hs, Hv, Hf.
    now rewrite (token_with_secret lib env _ _ Hs Hne).
  - unfold verifyAdmin, verify_env.
    rewrite (truthy_some Hh), or_str_some, Hs, Hv, Hf. reflexivity.
  - unfold protected. rewrite A. unfold admin, without_password. simpl role.
    destruct (String.eqb (role u) "admin"); split; auto; discriminate.
Qed.

Lemma token_routes_agree_witness :
  me lib1 (fun _ => None) env0 [root0] (Some "Bearer id7|root@x.com|s3cret")
  = mkReply 200 None None None (Some (getPublicProfile root0)) None None
  /\ protected lib1 env0 [root0] (Some "Bearer id7|root@x.com|s3cret") = Next tt.
Proof.
  destruct (@token_routes_agree lib1 (fun _ => None) env0 [root0]
              "Bearer id7|root@x.com|s3cret" "s3cret"
              (mkPayload "id7" "root@x.com") root0)
    as (_ & H2 & _ & _ & H5); try reflexivity; try discriminate.
  split; [exact H2 | apply H5; reflexivity].
Defined.

Lemma find_replaced (db : Collection) (u u' : User) :
  In u db -> _id u' = _id u ->
  findById (map (fun v => if String.eqb (_id v) (_id u) then u' else v) db) (_id u)
  = Some u'.
Proof.
  intros Hin E. unfold findById.
  induction db as [|v db IH]; simpl in *; [tauto|].
  destruct (String.eqb (_id v) (_id u)) eqn:X.
  - rewrite E, String.eqb_refl. reflexivity.
  - rewrite X. destruct Hin as [-> | Hin]; [|now apply IH].
    rewrite String.eqb_refl in X. discriminate.
Qed.

(** X22. The token of a successful login opens /me: when login answers 200
    with a token, and the library verifies under the configured secret the
    tokens it signs for the users of the collection, then /me with that
    token as bearer, on the collection after the login, answers 200 with
    the profile that the login returned. *)
Theorem login_then_me (lib : Lib) (nokey : string -> option Payload) (env : Env)
        (now : Z) (db db' : Collection) (body : Body) (resp : Response)
        (tok secret : string) :
  login lib env now db body = (resp, db') ->
  status resp = 200%nat -> token resp = Some tok -> tok <> EmptyString ->
  JWT_SECRET env = Some secret ->
  (forall u, In u db ->
     jwt_verify lib (jwt_sign lib (mkPayload (_id u) (email u)) secret "7d") secret
     = Some (mkPayload (_id u) (email u))) ->
  me lib nokey env db' (Some ("Bearer " ++ tok))
  = mkReply 200 None None None (r_user resp) None None.
Proof.
  intros L St Tk Hne Hs Hjwt. unfold login in L.
  destruct (negb _ || negb _); [injection L as <- <-; discriminate|].
  destruct (findOne_email db _) as [user|] eqn:F;
    [|injection L as <- <-; discriminate].
  destruct (negb (isActive user)); [injection L as <- <-; discriminate|].
  destruct (negb (bcrypt_compare _ _ _)); [injection L as <- <-; discriminate|].
  unfold save_existing in L.
  destruct (validate _); [|injection L as <- <-; discriminate].
  unfold generateToken, generateToken_secret in L. rewrite Hs in L.
  destruct (String.eqb secret ""); [injection L as <- <-; discriminate|].
  injection L as <- <-. simpl in Tk. injection Tk as <-.
  apply findOne_email_in in F.
  unfold me, verify_env, option_map. rewrite strip_bearer.
  rewrite (truthy_some Hne), or_str_some, Hs.
  simpl negb. cbv iota.
  change (_id (pre_save now false true (set_lastLogin user (Some now))))
    with (_id user).
  change (email (pre_save now false true (set_lastLogin user (Some now))))
    with (email user).
  rewrite (Hjwt user F). simpl Auth.userId.
  rewrite (find_replaced db user
             (pre_save now false true (set_lastLogin user (Some now))) F eq_refl).
  reflexivity.
Qed.

Lemma login_then_me_witness :
  me lib1 (fun _ => None) env0
     (snd (login lib1 env0 9 db0
             (mkBody None (Some "Ann@x.com") (Some "secret1") None)))
     (Some "Bearer id1|ann@x.com|s3cret")
  = mkReply 200 None None None
      (r_user (fst (login lib1 env0 9 db0
                      (mkBody None (Some "Ann@x.com") (Some "secret1") None))))
      None None.
Proof.
  apply (@login_then_me lib1 (fun _ => None) env0 9%Z db0 _
           (mkBody None (Some "Ann@x.com") (Some "secret1") None)
           (fst (login lib1 env0 9 db0
                   (mkBody None (Some "Ann@x.com") (Some "secret1") None)))
           "id1|ann@x.com|s3cret" "s3cret");
    try reflexivity; try discriminate.
  intros u [<- | [<- | []]]; reflexivity.
Defined.





Example login_stamps_lastLogin :
  map lastLogin (snd (login lib0 env0 9 db0
                        (mkBody None (Some "ann@x.com") (Some "secret1") None)))
  = [Some 9%Z; None].
Proof. reflexivity. Qed.

End AuthExtra.
